(** * discord-webhook-go: payload construction, validation and delivery

    A shallow embedding of package [webhook] (Go).  Go strings are byte
    sequences, so they are Rocq [string]s (one [ascii] per byte) and [len]
    is [String.length].  Go's [int] is a two's-complement integer of
    [strconv.IntSize] bits (32 or 64, by platform): values are in [Z] and
    the operations that can overflow wrap explicitly.  A Go function
    returning [(T, error)] returns a pair whose second component is
    [option error] ([None] is Go's [nil]). *)

From Stdlib Require Import ZArith List String Ascii Bool Lia.
Import ListNotations.
Open Scope string_scope.
Open Scope Z_scope.

(** ** Machine integers *)

Inductive IntSize := Int32 | Int64.

Definition bits (sz : IntSize) : Z :=
  match sz with Int32 => 32 | Int64 => 64 end.

(** Two's-complement wrap of a mathematical integer to [w] bits. *)
Definition wrap (w : Z) (x : Z) : Z :=
  (x + 2 ^ (w - 1)) mod 2 ^ w - 2 ^ (w - 1).

Definition wrap_int (sz : IntSize) (x : Z) : Z := wrap (bits sz) x.

(** Go's [x << k] on [int]. *)
Definition shl_int (sz : IntSize) (x k : Z) : Z := wrap_int sz (Z.shiftl x k).

Definition maxUint64 : Z := 2 ^ 64 - 1.

(** [len(s)] *)
Definition len (s : string) : Z := Z.of_nat (String.length s).

Definition byte (c : ascii) : Z := Z.of_N (N_of_ascii c).

(** ** Errors

    Every error of the package is built by [fmt.Errorf(format, args...)];
    an error is kept as its format string and its arguments. *)

Inductive NumErrorKind := ErrSyntax | ErrRange.

(** [strconv.NumError] *)
Record NumError := mkNumError {
  Func : string;
  Num : string;
  Err : NumErrorKind
}.

Inductive fmt_arg :=
| ArgD (n : Z)                 (* an integer printed with %d *)
| ArgNumError (e : NumError)   (* a *strconv.NumError printed with %v *)
| ArgError (msg : string).     (* any other library error printed with %v *)

Record error := Errorf {
  format : string;
  args : list fmt_arg
}.

(** ** Constants (lines 18-23) *)

Definition minDecimalRGBValue : Z := 0.
Definition maxDecimalRGBValue : Z := 16777215.
Definition minRGBValue : Z := 0.
Definition maxRGBValue : Z := 255.

(** ** Data model (lines 25-94) *)

Record Footer := mkFooter {
  Footer_Text : string;
  Footer_IconURL : string;
  Footer_ProxyIconURL : string
}.

Record Image := mkImage {
  Image_URL : string;
  Image_ProxyURL : string;
  Image_Height : Z;
  Image_Width : Z
}.

Record Author := mkAuthor {
  Author_Name : string;
  Author_URL : string;
  Author_IconURL : string;
  Author_ProxyIconURL : string
}.

Record Thumbnail := mkThumbnail {
  Thumbnail_URL : string;
  Thumbnail_ProxyURL : string;
  Thumbnail_Height : Z;
  Thumbnail_Width : Z
}.

Record Field := mkField {
  Field_Name : string;
  Field_Value : string;
  Field_Inline : bool
}.

Record Embed := mkEmbed {
  Title : string;
  Description : string;
  URL : string;
  Color : Z;
  Timestamp : string;
  Footer_ : Footer;
  Image_ : Image;
  Thumbnail_ : Thumbnail;
  Author_ : Author;
  Fields : list Field
}.

Record Webhook := mkWebhook {
  Content : string;
  Username : string;
  AvatarURL : string;
  Embeds : list Embed
}.

Record RGB := mkRGB { R : Z; G : Z; B : Z }.

(** [colorEmbedTypes]: the type set [string | int | RGB] of the generic
    parameter of [CreateEmbed], as a tagged union. *)
Inductive colorEmbedTypes :=
| ColorString (v : string)
| ColorInt (v : Z)
| ColorRGB (v : RGB).

(** Zero values [Footer{}], [Image{}], ..., [Embed{}], [Webhook{}]. *)
Definition Footer_zero : Footer := mkFooter "" "" "".
Definition Image_zero : Image := mkImage "" "" 0 0.
Definition Author_zero : Author := mkAuthor "" "" "" "".
Definition Thumbnail_zero : Thumbnail := mkThumbnail "" "" 0 0.
Definition Embed_zero : Embed :=
  mkEmbed "" "" "" 0 "" Footer_zero Image_zero Thumbnail_zero Author_zero [].
Definition Webhook_zero : Webhook := mkWebhook "" "" "" [].

(** ** Mutators (lines 96-129) *)

Definition AddEmbed (w : Webhook) (embed : Embed) : Webhook :=
  mkWebhook (Content w) (Username w) (AvatarURL w) (Embeds w ++ [embed]).

Definition set_Fields (e : Embed) (fs : list Field) : Embed :=
  mkEmbed (Title e) (Description e) (URL e) (Color e) (Timestamp e)
          (Footer_ e) (Image_ e) (Thumbnail_ e) (Author_ e) fs.

Definition AddField (e : Embed) (field : Field) : Embed :=
  set_Fields e (Fields e ++ [field]).

Definition AddFields (e : Embed) (fields : list Field) : Embed :=
  set_Fields e (Fields e ++ fields).

Definition SetFooter (e : Embed) (footer : Footer) : Embed :=
  mkEmbed (Title e) (Description e) (URL e) (Color e) (Timestamp e)
          footer (Image_ e) (Thumbnail_ e) (Author_ e) (Fields e).

Definition SetImage (e : Embed) (image : Image) : Embed :=
  mkEmbed (Title e) (Description e) (URL e) (Color e) (Timestamp e)
          (Footer_ e) image (Thumbnail_ e) (Author_ e) (Fields e).

Definition SetThumbnail (e : Embed) (thumbnail : Thumbnail) : Embed :=
  mkEmbed (Title e) (Description e) (URL e) (Color e) (Timestamp e)
          (Footer_ e) (Image_ e) thumbnail (Author_ e) (Fields e).

Definition SetAuthor (e : Embed) (author : Author) : Embed :=
  mkEmbed (Title e) (Description e) (URL e) (Color e) (Timestamp e)
          (Footer_ e) (Image_ e) (Thumbnail_ e) author (Fields e).

(** ** [strconv.ParseInt] (Go standard library)

    The package calls [strconv.ParseInt(hex, 16, 0)].  The library function
    is transcribed for a base in 2..36 (no base prefix, no underscores: those
    exist only for base 0).  A result is the pair (value, error) as in Go. *)
Module strconv.

(** [lower(c) = c | ('x' - 'X')] *)
Definition lower (c : Z) : Z := Z.lor c 32.

(** The digit switch of [ParseUint]'s loop; [None] is its [default]. *)
Definition digit (c : Z) : option Z :=
  if (48 <=? c) && (c <=? 57) then Some (c - 48)
  else if (97 <=? lower c) && (lower c <=? 122) then Some (lower c - 97 + 10)
  else None.

(** The loop of [ParseUint] over the bytes of [s], from accumulator [n]. *)
Fixpoint ParseUint_loop (base cutoff maxVal : Z) (s : string) (n : Z)
  : Z * option NumErrorKind :=
  match s with
  | EmptyString => (n, None)
  | String c rest =>
      match digit (byte c) with
      | None => (0, Some ErrSyntax)
      | Some d =>
          if d >=? base then (0, Some ErrSyntax)
          else if n >=? cutoff then (maxVal, Some ErrRange)
          else
            let n' := n * base in
            let n1 := (n' + d) mod 2 ^ 64 in
            if (n1 <? n') || (n1 >? maxVal) then (maxVal, Some ErrRange)
            else ParseUint_loop base cutoff maxVal rest n1
      end
  end.

Definition ParseUint (sz : IntSize) (s : string) (base bitSize : Z)
  : Z * option NumErrorKind :=
  if String.eqb s "" then (0, Some ErrSyntax)
  else
    let bitSize := if bitSize =? 0 then bits sz else bitSize in
    let cutoff := maxUint64 / base + 1 in
    let maxVal := 2 ^ bitSize - 1 in
    ParseUint_loop base cutoff maxVal s 0.

Definition ParseInt (sz : IntSize) (s : string) (base bitSize : Z)
  : Z * option NumError :=
  let fnParseInt := "ParseInt" in
  match s with
  | EmptyString => (0, Some (mkNumError fnParseInt s ErrSyntax))
  | String c0 rest =>
      let s0 := s in
      (* pick off leading sign *)
      let '(neg, s) :=
        if Ascii.eqb c0 "+" then (false, rest)
        else if Ascii.eqb c0 "-" then (true, rest)
        else (false, s) in
      match ParseUint sz s base bitSize with
      | (_, Some ErrSyntax) => (0, Some (mkNumError fnParseInt s0 ErrSyntax))
      | (un, _) =>
          let bitSize := if bitSize =? 0 then bits sz else bitSize in
          let cutoff := 2 ^ (bitSize - 1) in
          if negb neg && (un >=? cutoff)
          then (cutoff - 1, Some (mkNumError fnParseInt s0 ErrRange))
          else if neg && (un >? cutoff)
          then (- cutoff, Some (mkNumError fnParseInt s0 ErrRange))
          else
            let n := wrap 64 un in
            (if neg then wrap 64 (- n) else n, None)
      end
  end.

End strconv.

(** ** Color conversion (lines 235-262) *)

Definition rgbToInt (sz : IntSize) (rgb : RGB) : Z * option error :=
  let err :=
    if (R rgb >? maxRGBValue) || (R rgb <? minRGBValue) ||
       (G rgb >? maxRGBValue) || (G rgb <? minRGBValue) ||
       (B rgb >? maxRGBValue) || (B rgb <? minRGBValue)
    then Some (Errorf "rgb color can only be from 0 to 255" [])
    else None in
  (Z.lor (Z.lor (shl_int sz (R rgb) 16) (shl_int sz (G rgb) 8)) (B rgb), err).

(** Lines 254-261: the parse of [hex] as it is after the first [if]. *)
Definition hexToColorInt_parse (sz : IntSize) (hex : string)
  : Z * option error :=
  match strconv.ParseInt sz hex 16 0 with
  | (_, Some err) =>
      (0, Some (Errorf "error parsing hex to int: %v" [ArgNumError err]))
  | (decimalValue, None) => (wrap_int sz decimalValue, None)
  end.

Definition hexToColorInt (sz : IntSize) (hex : string) : Z * option error :=
  match hex with
  | String c0 rest =>
      if (len hex =? 7) && Ascii.eqb c0 "#"
      then hexToColorInt_parse sz rest               (* hex = hex[1:] *)
      else if negb (len hex =? 6)
      then (0, Some (Errorf "invalid hex color format" []))
      else hexToColorInt_parse sz hex
  | EmptyString =>
      (* len(hex) == 7 is false and len(hex) != 6 is true *)
      (0, Some (Errorf "invalid hex color format" []))
  end.

(** ** Constructors (lines 141-233) *)

Definition CreateWebhook (content username avatarURL : string)
  : Webhook * option error :=
  if len content >? 2000
  then (Webhook_zero,
        Some (Errorf
          "the length of the content cannot exceed 2000 characters (your length: %d)"
          [ArgD (len content)]))
  else (mkWebhook content username avatarURL [], None).

Definition CreateEmbed (sz : IntSize) (title description url : string)
  (color : colorEmbedTypes) : Embed * option error :=
  let '(colorValue, err) :=
    match color with
    | ColorString v => hexToColorInt sz v
    | ColorInt v =>
        (v, if (v >? maxDecimalRGBValue) || (v <? minDecimalRGBValue)
            then Some (Errorf "you can only use numbers from 0 to 16777215" [])
            else None)
    | ColorRGB v => rgbToInt sz v
    end in
  match err with
  | Some err => (Embed_zero, Some err)
  | None =>
      (mkEmbed title description url colorValue ""
               Footer_zero Image_zero Thumbnail_zero Author_zero [], None)
  end.

Definition CreateFooter (text iconURL proxyIconURL : string) : Footer :=
  mkFooter text iconURL proxyIconURL.

Definition CreateImage (url proxyURL : string) (height width : Z) : Image :=
  mkImage url proxyURL height width.

Definition CreateThumbnail (url proxyURL : string) (height width : Z)
  : Thumbnail :=
  mkThumbnail url proxyURL height width.

Definition CreateAuthor (name url iconURL proxyIconURL : string) : Author :=
  mkAuthor name url iconURL proxyIconURL.

Definition CreateField (name value : string) (inline : bool) : Field :=
  mkField name value inline.

(** ** [time.Parse] with the layout [time.RFC3339] (Go standard library)

    [isValidISO8601] calls [time.Parse(time.RFC3339, timestamp)] and keeps
    only the error.  The layout ["2006-01-02T15:04:05Z07:00"] is cut by the
    library into the chunks: year [2006], ["-"] month [01], ["-"] day [02],
    ["T"] hour [15], [":"] minute [04], [":"] second [05], zone [Z07:00].
    The general parser is transcribed chunk by chunk for this layout
    (the library's fast path for RFC 3339 accepts a subset of what the
    general parser accepts, and falls back to it).  A chunk parser takes the
    rest of the input and returns [None] for the library's [errBad] or range
    error, or the value read and the new rest. *)
Module time.

Definition parser (A : Type) : Type := string -> option (A * string).

Definition ret {A} (a : A) : parser A := fun value => Some (a, value).

Definition bind {A B} (p : parser A) (k : A -> parser B) : parser B :=
  fun value =>
    match p value with
    | Some (a, value') => k a value'
    | None => None
    end.

Definition fail {A} : parser A := fun _ => None.

Notation "x <- p ;; k" := (bind p (fun x => k))
  (at level 61, p at next level, right associativity).

Definition is_digit (c : ascii) : bool := (48 <=? byte c) && (byte c <=? 57).

(** [isDigit(s, i)] *)
Definition isDigit (s : string) (i : nat) : bool :=
  match String.get i s with
  | Some c => is_digit c
  | None => false
  end.

(** [getnum(s, fixed)]: one or two digits; two are required when [fixed]. *)
Definition getnum (fixed : bool) : parser Z := fun s =>
  if negb (isDigit s 0) then None
  else if negb (isDigit s 1) then
    if fixed then None
    else match s with
         | String c0 rest => Some (byte c0 - 48, rest)
         | EmptyString => None
         end
  else match s with
       | String c0 (String c1 rest) =>
           Some ((byte c0 - 48) * 10 + (byte c1 - 48), rest)
       | _ => None
       end.

(** [skip(value, prefix)], for a prefix without spaces. *)
Fixpoint skip (prefix : string) : parser unit := fun value =>
  match prefix with
  | EmptyString => Some (tt, value)
  | String p prefix' =>
      match value with
      | String v value' =>
          if Ascii.eqb v p then skip prefix' value' else None
      | EmptyString => None
      end
  end.

(** [leadingInt(s)]: the digits at the front of [s] and what follows. *)
Fixpoint leadingInt (s : string) (x : Z) : Z * string :=
  match s with
  | String c rest =>
      if is_digit c then leadingInt rest (x * 10 + (byte c - 48)) else (x, s)
  | EmptyString => (x, s)
  end.

(** [atoi(s)], on the short strings it is given here (no overflow). *)
Definition atoi (s : string) : option Z :=
  let '(neg, s) :=
    match s with
    | String c rest =>
        if Ascii.eqb c "-" then (true, rest)
        else if Ascii.eqb c "+" then (false, rest)
        else (false, s)
    | EmptyString => (false, s)
    end in
  match leadingInt s 0 with
  | (q, EmptyString) => Some (if neg : bool then - q else q)
  | (_, String _ _) => None
  end.

(** chunk [stdLongYear] *)
Definition longYear : parser Z := fun value =>
  if (len value <? 4) || negb (isDigit value 0) then None
  else match atoi (substring 0 4 value) with
       | Some year => Some (year, substring 4 (String.length value - 4) value)
       | None => None
       end.

(** [rangeErrString != ""] after a chunk *)
Definition in_range (ok : bool) : parser unit :=
  if ok then ret tt else fail.

Definition commaOrPeriod (c : ascii) : bool :=
  Ascii.eqb c "." || Ascii.eqb c ",".

Fixpoint skip_digits (s : string) : string :=
  match s with
  | String c rest => if is_digit c then skip_digits rest else s
  | EmptyString => s
  end.

(** The special case of chunk [stdZeroSecond]: a fractional second in the
    input that the layout does not have.  [parseNanoseconds] cannot fail
    on the digits it is given. *)
Definition fractional : parser unit := fun value =>
  match value with
  | String c0 (String c1 rest) =>
      if commaOrPeriod c0 && is_digit c1 then Some (tt, skip_digits rest)
      else Some (tt, value)
  | _ => Some (tt, value)
  end.

(** chunk [stdISO8601ColonTZ] *)
Definition zone : parser unit := fun value =>
  match value with
  | String c0 rest0 =>
      if Ascii.eqb c0 "Z" then Some (tt, rest0)
      else if len value <? 6 then None
      else
        match value with
        | String sign (String h0 (String h1 (String colon
            (String m0 (String m1 rest))))) =>
            if negb (Ascii.eqb colon ":") then None
            else
              match getnum true (String h0 (String h1 "")),
                    getnum true (String m0 (String m1 "")) with
              | Some (hr, _), Some (mm, _) =>
                  if (hr >? 24) || (mm >? 60) then None
                  else if Ascii.eqb sign "+" || Ascii.eqb sign "-"
                  then Some (tt, rest)
                  else None
              | _, _ => None
              end
        | _ => None
        end
  | EmptyString => None
  end.

Definition isLeap (year : Z) : bool :=
  (year mod 4 =? 0) && (negb (year mod 100 =? 0) || (year mod 400 =? 0)).

Definition daysIn (m year : Z) : Z :=
  if m =? 2 then (if isLeap year then 29 else 28)
  else 30 + Z.land (m + Z.shiftr m 3) 1.

(** [Parse(RFC3339, value)]: [Some tt] when the returned error is nil. *)
Definition Parse_RFC3339 (value : string) : option unit :=
  match
    (year <- longYear ;;
     _ <- skip "-" ;;
     month <- getnum true ;;
     _ <- in_range (negb ((month <=? 0) || (12 <? month))) ;;
     _ <- skip "-" ;;
     day <- getnum true ;;
     _ <- skip "T" ;;
     hour <- getnum false ;;
     _ <- in_range (negb ((hour <? 0) || (24 <=? hour))) ;;
     _ <- skip ":" ;;
     min <- getnum true ;;
     _ <- in_range (negb ((min <? 0) || (60 <=? min))) ;;
     _ <- skip ":" ;;
     sec <- getnum true ;;
     _ <- in_range (negb ((sec <? 0) || (60 <=? sec))) ;;
     _ <- fractional ;;
     _ <- zone ;;
     ret (year, month, day)) value
  with
  | Some ((year, month, day), rest) =>
      if negb (len rest =? 0) then None          (* extra text *)
      else if (day <? 1) || (day >? daysIn month year) then None
      else Some tt
  | None => None
  end.

End time.

(** ** [Time.Format] with the layout [time.RFC3339] (Go standard library)

    The example program stamps its embed with
    [time.Now().Format(time.RFC3339)].  A [Time] is kept as the date and
    clock the library derives from it in its location, and the offset of that
    location in seconds east of UTC.  [Format_RFC3339] transcribes the
    library's [appendFormatRFC3339] (without nanoseconds) and [appendInt]. *)
Module time_Format.

Record Time := mkTime {
  year : Z; month : Z; day : Z;
  hour : Z; min : Z; sec : Z;
  offset : Z
}.

(** The byte ['0' + d]. *)
Definition digit_char (d : Z) : ascii := ascii_of_N (Z.to_N (48 + d)).

(** The decimal digits of [u], most significant first, in front of [acc]. *)
Fixpoint digits (fuel : nat) (u : Z) (acc : string) : string :=
  match fuel with
  | O => acc
  | S fuel' =>
      if u <? 10 then String (digit_char u) acc
      else digits fuel' (u / 10) (String (digit_char (u mod 10)) acc)
  end.

(** Zeros in front of [s] up to [width] bytes. *)
Fixpoint zeros (n : nat) : string :=
  match n with
  | O => ""
  | S n' => String "0" (zeros n')
  end.

Definition pad (width : nat) (s : string) : string :=
  zeros (width - String.length s) ++ s.

(** [appendInt(b, x, width)], as the bytes appended. *)
Definition appendInt (x : Z) (width : nat) : string :=
  let u := Z.abs x in
  let sign := if x <? 0 then "-" else "" in
  if Nat.eqb width 2 && (u <? 100)
  then sign ++ String (digit_char (u / 10)) (String (digit_char (u mod 10)) "")
  else if Nat.eqb width 4 && (u <? 10000)
  then sign ++ String (digit_char (u / 1000))
                 (String (digit_char (u / 100 mod 10))
                    (String (digit_char (u / 10 mod 10))
                       (String (digit_char (u mod 10)) "")))
  else sign ++ pad width (digits 20 u "").

(** The end of [appendFormatRFC3339]: [Z], or the zone as [+hh:mm]. *)
Definition Format_zone (offset : Z) : string :=
  if offset =? 0 then "Z"
  else
    let zone := Z.quot offset 60 in             (* convert to minutes *)
    let sign := if zone <? 0 then "-" else "+" in
    let zone := if zone <? 0 then - zone else zone in
    sign ++ appendInt (Z.quot zone 60) 2 ++ ":" ++
    appendInt (Z.rem zone 60) 2.

Definition Format_RFC3339 (t : Time) : string :=
  appendInt (year t) 4 ++ "-" ++ appendInt (month t) 2 ++ "-" ++
  appendInt (day t) 2 ++ "T" ++
  appendInt (hour t) 2 ++ ":" ++ appendInt (min t) 2 ++ ":" ++
  appendInt (sec t) 2 ++ Format_zone (offset t).

(** What [Time.Date] and [Time.Clock] return for any time whose year has
    four digits, and an offset below 25 hours. *)
Definition civil (t : Time) : Prop :=
  0 <= year t <= 9999 /\ 1 <= month t <= 12 /\
  1 <= day t <= time.daysIn (month t) (year t) /\
  0 <= hour t <= 23 /\ 0 <= min t <= 59 /\ 0 <= sec t <= 59 /\
  -90000 < offset t < 90000.

End time_Format.

(** ** Timestamp (lines 131-139, 264-268) *)

Definition isValidISO8601 (timestamp : string) : bool :=
  match time.Parse_RFC3339 timestamp with
  | Some _ => true
  | None => false
  end.

Definition set_Timestamp (e : Embed) (timestamp : string) : Embed :=
  mkEmbed (Title e) (Description e) (URL e) (Color e) timestamp
          (Footer_ e) (Image_ e) (Thumbnail_ e) (Author_ e) (Fields e).

(** The receiver is a pointer: the embed after the call is returned with the
    error. *)
Definition SetTimestamp (e : Embed) (timestamp : string)
  : Embed * option error :=
  if isValidISO8601 timestamp then (set_Timestamp e timestamp, None)
  else (e, Some (Errorf "timestamp is not ISO8601 timestamp" [])).

(** ** [json.Marshal] (Go standard library) on the payload types

    [encoding/json] walks a value by reflection.  A struct field tagged
    [omitempty] is left out when [isEmptyValue] holds of it: a string, slice,
    array or map of length 0, a false boolean, a zero number, a nil pointer
    or interface.  A struct is never empty.  The output is kept as a JSON
    tree, as it is before it is written out as text: a string member
    [JString s] stands for the JSON string written for the Go string [s].
    Writing it out (the escapes, and U+FFFD in place of each byte of [s]
    that is not valid UTF-8) is not modelled, so two trees that differ in a
    string can still be written as the same text. *)
Module json.

(** A Go value as reflection sees it; a struct field carries its JSON
    key and whether its tag has [omitempty]. *)
#[local] Unset Elimination Schemes.
Inductive gvalue :=
| GString (s : string)
| GInt (n : Z)
| GBool (b : bool)
| GSlice (vs : list gvalue)
| GStruct (fs : list (string * bool * gvalue)).

Inductive JSON :=
| JString (s : string)
| JNumber (n : Z)
| JBool (b : bool)
| JArray (vs : list JSON)
| JObject (members : list (string * JSON)).
#[local] Set Elimination Schemes.

Definition isEmptyValue (v : gvalue) : bool :=
  match v with
  | GString s => len s =? 0
  | GSlice vs => Z.of_nat (List.length vs) =? 0
  | GBool b => negb b
  | GInt n => n =? 0
  | GStruct _ => false
  end.

(** The encoders of [encoding/json]: [structEncoder] skips a field when
    [omitEmpty && isEmptyValue(fv)]. *)
Fixpoint encode (v : gvalue) : JSON :=
  match v with
  | GString s => JString s
  | GInt n => JNumber n
  | GBool b => JBool b
  | GSlice vs => JArray (map encode vs)
  | GStruct fs =>
      JObject
        (flat_map
           (fun f =>
              match f with
              | (name, omitEmpty, fv) =>
                  if omitEmpty && isEmptyValue fv then []
                  else [(name, encode fv)]
              end) fs)
  end.

(** The struct tags of lines 27-84. *)
Definition of_Footer (f : Footer) : gvalue :=
  GStruct [("text", true, GString (Footer_Text f));
           ("icon_url", true, GString (Footer_IconURL f));
           ("proxy_icon_url", true, GString (Footer_ProxyIconURL f))].

Definition of_Image (i : Image) : gvalue :=
  GStruct [("url", true, GString (Image_URL i));
           ("proxy_url", true, GString (Image_ProxyURL i));
           ("height", true, GInt (Image_Height i));
           ("width", true, GInt (Image_Width i))].

Definition of_Author (a : Author) : gvalue :=
  GStruct [("name", true, GString (Author_Name a));
           ("url", true, GString (Author_URL a));
           ("icon_url", true, GString (Author_IconURL a));
           ("proxy_icon_url", true, GString (Author_ProxyIconURL a))].

Definition of_Thumbnail (t : Thumbnail) : gvalue :=
  GStruct [("url", true, GString (Thumbnail_URL t));
           ("proxy_url", true, GString (Thumbnail_ProxyURL t));
           ("height", true, GInt (Thumbnail_Height t));
           ("width", true, GInt (Thumbnail_Width t))].

Definition of_Field (f : Field) : gvalue :=
  GStruct [("name", false, GString (Field_Name f));
           ("value", false, GString (Field_Value f));
           ("inline", true, GBool (Field_Inline f))].

Definition of_Embed (e : Embed) : gvalue :=
  GStruct [("title", true, GString (Title e));
           ("description", true, GString (Description e));
           ("url", true, GString (URL e));
           ("color", true, GInt (Color e));
           ("timestamp", true, GString (Timestamp e));
           ("footer", true, of_Footer (Footer_ e));
           ("image", true, of_Image (Image_ e));
           ("thumbnail", true, of_Thumbnail (Thumbnail_ e));
           ("author", true, of_Author (Author_ e));
           ("fields", true, GSlice (map of_Field (Fields e)))].

Definition of_Webhook (w : Webhook) : gvalue :=
  GStruct [("content", true, GString (Content w));
           ("username", true, GString (Username w));
           ("avatar_url", true, GString (AvatarURL w));
           ("embeds", true, GSlice (map of_Embed (Embeds w)))].

(** [json.Marshal(webhookPayload)]: no value of these types makes the
    encoder fail, so the error is always nil. *)
Definition Marshal (w : Webhook) : JSON * option string :=
  (encode (of_Webhook w), None).

(** The keys of a JSON object, in order. *)
Definition keys (j : JSON) : list string :=
  match j with
  | JObject members => map fst members
  | _ => []
  end.

(** The member of a JSON object under a key. *)
Definition member (key : string) (j : JSON) : option JSON :=
  match j with
  | JObject members =>
      match find (fun m => String.eqb (fst m) key) members with
      | Some m => Some (snd m)
      | None => None
      end
  | _ => None
  end.

End json.

(** ** Delivery (lines 270-288)

    [http.Post] is the transport: it answers a request with a response of
    some status code, or fails with an error. *)

Inductive post_result :=
| Response (StatusCode : Z)
| PostError (err : string).

Definition StatusOK : Z := 200.
Definition StatusNoContent : Z := 204.

Section Delivery.

Variable http_Post : string -> string -> json.JSON -> post_result.

Definition SendWebhook (webhookUrl : string) (webhookPayload : Webhook)
  : option error :=
  match json.Marshal webhookPayload with
  | (_, Some err) =>
      Some (Errorf "failed to marshal JSON payload: %v" [ArgError err])
  | (jsonData, None) =>
      match http_Post webhookUrl "application/json" jsonData with
      | PostError err =>
          Some (Errorf "failed to post to Discord: %v" [ArgError err])
      | Response StatusCode =>
          if negb (StatusCode =? StatusOK) &&
             negb (StatusCode =? StatusNoContent)
          then Some (Errorf "discord webhook returned status %d"
                            [ArgD StatusCode])
          else None
      end
  end.

End Delivery.

(** ** The example program (examples/example2/main.go)

    [main] builds a webhook with one embed and sends it; [log.Fatalf] ends
    the program with a message.  The current time and the transport are the
    program's inputs. *)

Inductive outcome :=
| Done
| Fatalf (format : string) (err : error).

Definition example2_imageURL : string :=
  "https://go.dev/blog/go-brand/Go-Logo/PNG/Go-Logo_Aqua.png".

Section Example2.

Variable sz : IntSize.
Variable http_Post : string -> string -> json.JSON -> post_result.
Variable now : time_Format.Time.

Definition example2_main : outcome :=
  let webhookURL := "YOUR_WEBHOOK_URL" in
  let imageURL := example2_imageURL in
  match CreateWebhook "Hello Discord From Go!" "Bot's username" imageURL with
  | (_, Some err) => Fatalf "Error creating webhook payload: %v" err
  | (webhookPayload, None) =>
      match CreateEmbed sz "Embed Title" "Embed description text"
                        "https://example.com" (ColorRGB (mkRGB 111 222 77))
      with
      | (_, Some err) => Fatalf "Error creating embed: %v" err
      | (embed, None) =>
          let thumbnail := CreateThumbnail imageURL "" 300 300 in
          let footer := CreateFooter "Footer Text" imageURL "" in
          let image := CreateImage imageURL "" 200 200 in
          let author := CreateAuthor "@Dozerokz" "" imageURL "" in
          let field1 := CreateField "Field Name 1" "Value 1" true in
          let field2 := CreateField "Field Name 2" "Value 2" true in
          let field3 := CreateField "Field Name 3" "Value 3" true in
          let field4 := CreateField "Field Name 4" "Value 4" false in
          let fields := [field1; field2; field3] in
          let embed := SetThumbnail embed thumbnail in
          let embed := SetFooter embed footer in
          let embed := SetImage embed image in
          let embed := SetAuthor embed author in
          let embed := AddFields embed fields in
          let embed := AddField embed field4 in
          match SetTimestamp embed (time_Format.Format_RFC3339 now) with
          | (_, Some err) => Fatalf "Error setting timestamp: %v" err
          | (embed, None) =>
              let webhookPayload := AddEmbed webhookPayload embed in
              match SendWebhook http_Post webhookURL webhookPayload with
              | Some err => Fatalf "Error sending webhook: %v" err
              | None => Done
              end
          end
      end
  end.

End Example2.

(** The payload the example program is expected to send at time [now]. *)
Definition example2_payload (now : time_Format.Time) : Webhook :=
  mkWebhook "Hello Discord From Go!" "Bot's username" example2_imageURL
    [mkEmbed "Embed Title" "Embed description text" "https://example.com"
       7331405 (time_Format.Format_RFC3339 now)
       (mkFooter "Footer Text" example2_imageURL "")
       (mkImage example2_imageURL "" 200 200)
       (mkThumbnail example2_imageURL "" 300 300)
       (mkAuthor "@Dozerokz" "" example2_imageURL "")
       [mkField "Field Name 1" "Value 1" true;
        mkField "Field Name 2" "Value 2" true;
        mkField "Field Name 3" "Value 3" true;
        mkField "Field Name 4" "Value 4" false]].

(** ** Vocabulary of the specification

    The words the specification uses about inputs, defined independently of
    the functions above. *)

(** A hex digit: 0-9, a-f, A-F. *)
Definition is_hex_digit (c : ascii) : bool :=
  let b := byte c in
  ((48 <=? b) && (b <=? 57)) || ((97 <=? b) && (b <=? 102)) ||
  ((65 <=? b) && (b <=? 70)).

Fixpoint all_hex (s : string) : bool :=
  match s with
  | EmptyString => true
  | String c rest => is_hex_digit c && all_hex rest
  end.

Definition hex_digit_value (c : ascii) : Z :=
  let b := byte c in
  if b <=? 57 then b - 48 else if b <=? 70 then b - 55 else b - 87.

(** The digits of [s] read as a base-16 number, after the digits already
    accumulated in [acc]. *)
Fixpoint base16 (s : string) (acc : Z) : Z :=
  match s with
  | EmptyString => acc
  | String c rest => base16 rest (acc * 16 + hex_digit_value c)
  end.

Definition is_sign (c : ascii) : bool := Ascii.eqb c "+" || Ascii.eqb c "-".

(** A sign followed by hex digits only. *)
Definition signed_hex (s : string) : bool :=
  match s with
  | String c rest => is_sign c && all_hex rest
  | EmptyString => false
  end.

(** "After stripping a single leading '#'". *)
Definition strip_hash (s : string) : string :=
  match s with
  | String c rest => if Ascii.eqb c "#" then rest else s
  | EmptyString => s
  end.

(** An upper-case letter turned into its lower-case letter; other bytes
    are kept. *)
Definition lower_byte (c : ascii) : ascii :=
  if (65 <=? byte c) && (byte c <=? 90)
  then ascii_of_N (N_of_ascii c + 32)
  else c.

Fixpoint lower_string (s : string) : string :=
  match s with
  | EmptyString => EmptyString
  | String c rest => String (lower_byte c) (lower_string rest)
  end.

(** The number of characters of a text in UTF-8: each character is one byte
    that is not a continuation byte ([10xxxxxx], 128 to 191), followed by
    its continuation bytes.  On valid UTF-8 this is Go's
    [utf8.RuneCountInString]. *)
Definition is_continuation (c : ascii) : bool :=
  (128 <=? byte c) && (byte c <=? 191).

Fixpoint characters (s : string) : Z :=
  match s with
  | EmptyString => 0
  | String c rest =>
      (if is_continuation c then 0 else 1) + characters rest
  end.

(** The euro sign, U+20AC: the three bytes E2 82 AC. *)
Definition euro : string :=
  String (ascii_of_nat 226) (String (ascii_of_nat 130)
    (String (ascii_of_nat 172) EmptyString)).

(** [strings.Repeat(s, n)] *)
Fixpoint Repeat (s : string) (n : nat) : string :=
  match n with
  | O => EmptyString
  | S n' => s ++ Repeat s n'
  end.

Definition in_color_range (v : Z) : Prop := 0 <= v <= 16777215.

Definition channel_ok (c : Z) : bool := (0 <=? c) && (c <=? 255).

Definition channels_ok (rgb : RGB) : bool :=
  channel_ok (R rgb) && channel_ok (G rgb) && channel_ok (B rgb).

(** [n] copies of the byte [c]. *)
Fixpoint replicate (n : nat) (c : ascii) : string :=
  match n with
  | O => EmptyString
  | S n' => String c (replicate n' c)
  end.

(** The shape of the strict date-time profile of section 4.2: 4-digit year,
    2-digit month and day, [T], 2-digit hour, minute and second, an optional
    fraction of a second, and [Z] or a numeric offset of 2-digit hour and
    minute.  Every reading of the strict profile requires at least this
    shape. *)
Definition strict_zone (s : string) : bool :=
  match s with
  | String z EmptyString => Ascii.eqb z "Z"
  | String sg (String h0 (String h1 (String c (String m0 (String m1
      EmptyString))))) =>
      is_sign sg && time.is_digit h0 && time.is_digit h1 &&
      Ascii.eqb c ":" && time.is_digit m0 && time.is_digit m1
  | _ => false
  end.

Definition strict_fraction_zone (s : string) : bool :=
  match s with
  | String dot (String d0 rest) =>
      if Ascii.eqb dot "."
      then time.is_digit d0 && strict_zone (time.skip_digits rest)
      else strict_zone s
  | _ => strict_zone s
  end.

Definition strict_profile (s : string) : bool :=
  match s with
  | String y0 (String y1 (String y2 (String y3 (String d1
    (String mo0 (String mo1 (String d2
    (String da0 (String da1 (String t
    (String h0 (String h1 (String c1
    (String mi0 (String mi1 (String c2
    (String s0 (String s1 rest)))))))))))))))))) =>
      time.is_digit y0 && time.is_digit y1 && time.is_digit y2 &&
      time.is_digit y3 && Ascii.eqb d1 "-" &&
      time.is_digit mo0 && time.is_digit mo1 && Ascii.eqb d2 "-" &&
      time.is_digit da0 && time.is_digit da1 && Ascii.eqb t "T" &&
      time.is_digit h0 && time.is_digit h1 && Ascii.eqb c1 ":" &&
      time.is_digit mi0 && time.is_digit mi1 && Ascii.eqb c2 ":" &&
      time.is_digit s0 && time.is_digit s1 && strict_fraction_zone rest
  | _ => false
  end.

(** ** Auxiliary definitions for the statements *)

(** [ParseUint]'s cutoff for base 16: the least [n] with [n * 16] above
    [maxUint64]. *)
Definition cutoff16 : Z := maxUint64 / 16 + 1.

(** The two errors of [hexToColorInt]. *)
Definition errHexFormat : error := Errorf "invalid hex color format" [].

Definition errHexParse (num : string) : error :=
  Errorf "error parsing hex to int: %v"
         [ArgNumError (mkNumError "ParseInt" num ErrSyntax)].

(** The embed [CreateEmbed] builds around a color value. *)
Definition fresh_embed (title description url : string) (color : Z) : Embed :=
  mkEmbed title description url color ""
          Footer_zero Image_zero Thumbnail_zero Author_zero [].

(** [e'] has the title, description, URL, color and timestamp of [e]. *)
Definition same_scalars (e e' : Embed) : Prop :=
  Title e' = Title e /\ Description e' = Description e /\ URL e' = URL e /\
  Color e' = Color e /\ Timestamp e' = Timestamp e.

(** [e'] has the footer, image, thumbnail and author of [e]. *)
Definition same_footer (e e' : Embed) : Prop := Footer_ e' = Footer_ e.
Definition same_image (e e' : Embed) : Prop := Image_ e' = Image_ e.
Definition same_thumbnail (e e' : Embed) : Prop :=
  Thumbnail_ e' = Thumbnail_ e.
Definition same_author (e e' : Embed) : Prop := Author_ e' = Author_ e.
Definition same_fields (e e' : Embed) : Prop := Fields e' = Fields e.

(** ** Slices in memory

    A Go slice is a header (array, length, capacity) over a backing array,
    and copying a struct copies the headers of its slices, not the arrays:
    an [Embed] value copied by assignment or passed to [AddEmbed] shares
    the array of its [Fields] with the original.  The records above are
    the entities as one owner reads them.  Module [store] keeps the headers
    and the arrays apart, with the mutators as they act on memory.  A
    header here starts at the first slot of its array, as every slice made
    by [append] or [make] does. *)
Module store.

Record slice := mkSlice { sarr : nat; slen : nat; scap : nat }.

(** The nil slice. *)
Definition nil : slice := mkSlice 0 0 0.

Section Append.

Context {A : Type}.
Variable zero : A.
(** The capacity the runtime chooses when it must grow (old capacity,
    length needed). *)
Variable growslice : nat -> nat -> nat.

(** The elements a slice shows: the first [slen] of its array. *)
Definition elements (h : list (list A)) (s : slice) : list A :=
  firstn (slen s) (nth (sarr s) h []).

(** The arrays with array [i] replaced. *)
Fixpoint put (h : list (list A)) (i : nat) (a : list A) : list (list A) :=
  match h, i with
  | [], _ => []
  | _ :: t, O => a :: t
  | x :: t, S i' => x :: put t i' a
  end.

(** [append(s, xs...)]: within capacity the elements are written into the
    array of [s] after its length; otherwise a new array is made, with the
    elements of [s], then [xs], then zero values up to its capacity. *)
Definition append (h : list (list A)) (s : slice) (xs : list A)
  : list (list A) * slice :=
  let n := (slen s + List.length xs)%nat in
  if Nat.leb n (scap s) then
    let a := nth (sarr s) h [] in
    (put h (sarr s) (firstn (slen s) a ++ xs ++ skipn n a)%list,
     mkSlice (sarr s) n (scap s))
  else
    let newcap := growslice (scap s) n in
    ((h ++ [(elements h s ++ xs ++ repeat zero (newcap - n))%list])%list,
     mkSlice (List.length h) n newcap).



End Append.

(** The structs as they lie in memory. *)
Record EmbedH := mkEmbedH {
  H_Title : string;
  H_Description : string;
  H_URL : string;
  H_Color : Z;
  H_Timestamp : string;
  H_Footer : Footer;
  H_Image : Image;
  H_Thumbnail : Thumbnail;
  H_Author : Author;
  H_Fields : slice
}.

Record WebhookH := mkWebhookH {
  H_Content : string;
  H_Username : string;
  H_AvatarURL : string;
  H_Embeds : slice
}.

Record memory := mkMemory {
  fieldArrays : list (list Field);
  embedArrays : list (list EmbedH)
}.

Definition Field_zero : Field := mkField "" "" false.

Definition EmbedH_zero : EmbedH :=
  mkEmbedH "" "" "" 0 "" Footer_zero Image_zero Thumbnail_zero Author_zero nil.

(** The entity a header shows to its owner. *)
Definition read_Embed (m : memory) (e : EmbedH) : Embed :=
  mkEmbed (H_Title e) (H_Description e) (H_URL e) (H_Color e)
          (H_Timestamp e) (H_Footer e) (H_Image e) (H_Thumbnail e)
          (H_Author e) (elements (fieldArrays m) (H_Fields e)).


Definition set_H_Fields (e : EmbedH) (s : slice) : EmbedH :=
  mkEmbedH (H_Title e) (H_Description e) (H_URL e) (H_Color e)
           (H_Timestamp e) (H_Footer e) (H_Image e) (H_Thumbnail e)
           (H_Author e) s.

(** The setters assign a field of the receiver and touch no array. *)
Definition SetFooter (e : EmbedH) (footer : Footer) : EmbedH :=
  mkEmbedH (H_Title e) (H_Description e) (H_URL e) (H_Color e)
           (H_Timestamp e) footer (H_Image e) (H_Thumbnail e) (H_Author e)
           (H_Fields e).

Definition SetImage (e : EmbedH) (image : Image) : EmbedH :=
  mkEmbedH (H_Title e) (H_Description e) (H_URL e) (H_Color e)
           (H_Timestamp e) (H_Footer e) image (H_Thumbnail e) (H_Author e)
           (H_Fields e).

Definition SetThumbnail (e : EmbedH) (thumbnail : Thumbnail) : EmbedH :=
  mkEmbedH (H_Title e) (H_Description e) (H_URL e) (H_Color e)
           (H_Timestamp e) (H_Footer e) (H_Image e) thumbnail (H_Author e)
           (H_Fields e).

Definition SetAuthor (e : EmbedH) (author : Author) : EmbedH :=
  mkEmbedH (H_Title e) (H_Description e) (H_URL e) (H_Color e)
           (H_Timestamp e) (H_Footer e) (H_Image e) (H_Thumbnail e) author
           (H_Fields e).

Definition SetTimestamp (e : EmbedH) (timestamp : string)
  : EmbedH * option error :=
  if isValidISO8601 timestamp
  then (mkEmbedH (H_Title e) (H_Description e) (H_URL e) (H_Color e)
                 timestamp (H_Footer e) (H_Image e) (H_Thumbnail e)
                 (H_Author e) (H_Fields e), None)
  else (e, Some (Errorf "timestamp is not ISO8601 timestamp" [])).

Section Mutators.

Variable growslice : nat -> nat -> nat.

(** [e.Fields = append(e.Fields, fields...)]; [fields] is given by its
    elements, which [append] reads before it writes. *)
Definition AddFields (m : memory) (e : EmbedH) (fields : list Field)
  : memory * EmbedH :=
  let '(h, s) := append Field_zero growslice (fieldArrays m) (H_Fields e)
                        fields in
  (mkMemory h (embedArrays m), set_H_Fields e s).

Definition AddField (m : memory) (e : EmbedH) (field : Field)
  : memory * EmbedH :=
  AddFields m e [field].

(** [w.Embeds = append(w.Embeds, embed)]; [embed] is the copy of the
    caller's struct, with the caller's slice header. *)
Definition AddEmbed (m : memory) (w : WebhookH) (embed : EmbedH)
  : memory * WebhookH :=
  let '(h, s) := append EmbedH_zero growslice (embedArrays m) (H_Embeds w)
                        [embed] in
  (mkMemory (fieldArrays m) h,
   mkWebhookH (H_Content w) (H_Username w) (H_AvatarURL w) s).

End Mutators.

(** The runtime's choice of capacity for the short slices met here: twice
    the old capacity, or the length needed if that is more. *)
Definition double (oldCap needed : nat) : nat := Nat.max needed (2 * oldCap).

End store.








(** A scene for the shared array: three fields, an embed whose [Fields]
    has one element in an array of two (as [make([]Field, 1, 2)] gives), and
    the memory holding that array. *)
Definition field_a : Field := mkField "a" "1" false.
Definition field_x : Field := mkField "x" "2" false.
Definition field_y : Field := mkField "y" "3" false.



(** The embed [CreateEmbed] returns, in memory: its [Fields] is nil. *)
Definition created_embed : store.EmbedH :=
  store.mkEmbedH "Title" "" "" 255 "" Footer_zero Image_zero Thumbnail_zero
                 Author_zero store.nil.

(** Case analysis on the 256 values of a byte. *)
Ltac each_byte c :=
  destruct c as [[] [] [] [] [] [] [] []]; vm_compute.

(** * Properties *)

Example hex_plain : hexToColorInt Int64 "ff5733" = (16734003, None).
Proof. vm_compute. reflexivity. Qed.
Example hex_hash : hexToColorInt Int32 "#FF5733" = (16734003, None).
Proof. vm_compute. reflexivity. Qed.
Example hex_neg : hexToColorInt Int64 "-00001" = (-1, None).
Proof. vm_compute. reflexivity. Qed.
Example hex_hash5 : hexToColorInt Int64 "#12345" =
  (0, Some (Errorf "error parsing hex to int: %v"
      [ArgNumError (mkNumError "ParseInt" "#12345" ErrSyntax)])).
Proof. vm_compute. reflexivity. Qed.
Example rgb_ex : rgbToInt Int64 (mkRGB 111 222 77) = (7331405, None).
Proof. vm_compute. reflexivity. Qed.

Example ts_utc : isValidISO8601 "2024-01-15T10:30:00Z" = true.
Proof. vm_compute. reflexivity. Qed.
Example ts_offset : isValidISO8601 "2024-01-15T10:30:00+02:00" = true.
Proof. vm_compute. reflexivity. Qed.
Example ts_space : isValidISO8601 "2024-01-15 10:30:00" = false.
Proof. vm_compute. reflexivity. Qed.
Example ts_text : isValidISO8601 "not-a-date" = false.
Proof. vm_compute. reflexivity. Qed.
Example ts_frac : isValidISO8601 "2024-01-15T10:30:00.125Z" = true.
Proof. vm_compute. reflexivity. Qed.
Example ts_feb30 : isValidISO8601 "2024-02-30T10:30:00Z" = false.
Proof. vm_compute. reflexivity. Qed.
Example ts_hour1 : isValidISO8601 "2024-01-15T1:30:00Z" = true.
Proof. vm_compute. reflexivity. Qed.

Example marshal_small :
  json.encode (json.of_Webhook (mkWebhook "hi" "" "" [])) =
  json.JObject [("content", json.JString "hi")].
Proof. vm_compute. reflexivity. Qed.

Example strict_utc : strict_profile "2024-01-15T10:30:00Z" = true.
Proof. vm_compute. reflexivity. Qed.
Example strict_offset : strict_profile "2024-01-15T10:30:00+02:00" = true.
Proof. vm_compute. reflexivity. Qed.
Example strict_hour1 : strict_profile "2024-01-15T1:30:00Z" = false.
Proof. vm_compute. reflexivity. Qed.

(** ** Machine arithmetic *)

Lemma wrap_small (w x : Z) :
  0 < w -> - 2 ^ (w - 1) <= x < 2 ^ (w - 1) -> wrap w x = x.
Proof.
  intros Hw Hx. unfold wrap.
  assert (E : 2 ^ w = 2 * 2 ^ (w - 1)).
  { replace w with (Z.succ (w - 1)) at 1 by lia.
    rewrite Z.pow_succ_r by lia. reflexivity. }
  rewrite Z.mod_small by lia. lia.
Qed.

Lemma bits_cases (sz : IntSize) : bits sz = 32 \/ bits sz = 64.
Proof. destruct sz; [left | right]; reflexivity. Qed.

Lemma wrap_int_small (sz : IntSize) (x : Z) :
  - 2 ^ 31 <= x < 2 ^ 31 -> wrap_int sz x = x.
Proof.
  intros Hx. unfold wrap_int.
  destruct (bits_cases sz) as [E | E]; rewrite E;
    apply wrap_small; simpl; lia.
Qed.

Lemma len_cons (c : ascii) (s : string) : len (String c s) = len s + 1.
Proof. unfold len. simpl String.length. lia. Qed.

Lemma len_nonneg (s : string) : 0 <= len s.
Proof. unfold len. lia. Qed.

Lemma len_zero (s : string) : len s = 0 -> s = "".
Proof. destruct s; [reflexivity | rewrite len_cons; pose proof (len_nonneg s); lia]. Qed.

(** ** [strconv.ParseInt] on short hex strings *)

Lemma digit_of_hex (c : ascii) :
  is_hex_digit c = true ->
  strconv.digit (byte c) = Some (hex_digit_value c) /\
  0 <= hex_digit_value c < 16.
Proof.
  each_byte c; intros H; try discriminate H;
    (split; [reflexivity | split; [discriminate | reflexivity]]).
Qed.

Lemma digit_of_non_hex (c : ascii) :
  is_hex_digit c = false ->
  match strconv.digit (byte c) with
  | Some d => (d >=? 16) = true
  | None => True
  end.
Proof. each_byte c; intros H; try discriminate H; exact I || reflexivity. Qed.

Lemma hex_not_sign (c : ascii) : is_hex_digit c = true -> is_sign c = false.
Proof. each_byte c; intros H; try discriminate H; reflexivity. Qed.

Lemma hex_not_hash (c : ascii) :
  is_hex_digit c = true -> Ascii.eqb c "#" = false.
Proof. each_byte c; intros H; try discriminate H; reflexivity. Qed.

Lemma sign_not_hash (c : ascii) : is_sign c = true -> Ascii.eqb c "#" = false.
Proof. each_byte c; intros H; try discriminate H; reflexivity. Qed.

Lemma pow16_len_cons (c : ascii) (s : string) :
  16 ^ len (String c s) = 16 * 16 ^ len s.
Proof.
  rewrite len_cons, Z.pow_add_r by (pose proof (len_nonneg s); lia). lia.
Qed.

Lemma pow16_len_pos (s : string) : 1 <= 16 ^ len s.
Proof. pose proof (Z.pow_pos_nonneg 16 (len s) ltac:(lia) (len_nonneg s)). lia. Qed.

(** On hex digits only, and as long as the number stays below [2^31], the
    loop neither overflows nor rejects: it computes the base-16 value. *)
Lemma ParseUint_loop_hex (maxVal : Z) (s : string) :
  2 ^ 31 <= maxVal ->
  forall n,
    all_hex s = true -> 0 <= n -> (n + 1) * 16 ^ len s <= 2 ^ 31 ->
    strconv.ParseUint_loop 16 cutoff16 maxVal s n = (base16 s n, None) /\
    n * 16 ^ len s <= base16 s n < (n + 1) * 16 ^ len s.
Proof.
  intros HmaxVal. induction s as [| c s IH]; intros n Hhex Hn Hbound.
  - simpl. change (len "") with 0. split; [reflexivity | lia].
  - simpl in Hhex. apply andb_prop in Hhex as [Hc Hs].
    destruct (digit_of_hex c Hc) as [Hd Hrange].
    rewrite pow16_len_cons in *.
    pose proof (pow16_len_pos s) as Hpos.
    set (P := 16 ^ len s) in *.
    assert (Hn31 : n < 2 ^ 31) by nia.
    cbn [strconv.ParseUint_loop base16]. rewrite Hd.
    destruct (Z.geb_spec (hex_digit_value c) 16) as [Hge | _]; [lia |].
    destruct (Z.geb_spec n cutoff16) as [Hge | _];
      [change cutoff16 with 1152921504606846976 in Hge; lia |].
    rewrite Z.mod_small by lia.
    destruct (Z.ltb_spec (n * 16 + hex_digit_value c) (n * 16)) as [Hlt | _];
      [lia |].
    destruct (Z.gtb_spec (n * 16 + hex_digit_value c) maxVal) as [Hgt | _];
      [nia |].
    cbn [orb].
    destruct (IH (n * 16 + hex_digit_value c) Hs ltac:(lia) ltac:(fold P; nia))
      as [Hloop Hval].
    fold P in Hval. split; [exact Hloop | nia].
Qed.

(** A byte that is not a hex digit makes the loop stop with a syntax error,
    whatever follows it. *)
Lemma ParseUint_loop_non_hex (maxVal : Z) (s : string) :
  2 ^ 31 <= maxVal ->
  forall n,
    all_hex s = false -> 0 <= n -> (n + 1) * 16 ^ len s <= 2 ^ 31 ->
    strconv.ParseUint_loop 16 cutoff16 maxVal s n = (0, Some ErrSyntax).
Proof.
  intros HmaxVal. induction s as [| c s IH]; intros n Hhex Hn Hbound.
  - discriminate Hhex.
  - rewrite pow16_len_cons in Hbound.
    pose proof (pow16_len_pos s) as Hpos.
    set (P := 16 ^ len s) in *.
    simpl in Hhex. cbn [strconv.ParseUint_loop].
    destruct (is_hex_digit c) eqn:Hc.
    + destruct (digit_of_hex c Hc) as [Hd Hrange]. rewrite Hd.
      destruct (Z.geb_spec (hex_digit_value c) 16) as [Hge | _]; [lia |].
      destruct (Z.geb_spec n cutoff16) as [Hge | _];
        [change cutoff16 with 1152921504606846976 in Hge; nia |].
      rewrite Z.mod_small by nia.
      destruct (Z.ltb_spec (n * 16 + hex_digit_value c) (n * 16)) as [Hlt | _];
        [lia |].
      destruct (Z.gtb_spec (n * 16 + hex_digit_value c) maxVal) as [Hgt | _];
        [nia |].
      cbn [orb]. apply IH; [exact Hhex | lia | fold P; nia].
    + pose proof (digit_of_non_hex c Hc) as Hd.
      destruct (strconv.digit (byte c)) as [d |]; [| reflexivity].
      rewrite Hd. reflexivity.
Qed.

Lemma maxVal_bound (sz : IntSize) : 2 ^ 31 <= 2 ^ bits sz - 1.
Proof. destruct sz; simpl; lia. Qed.

Lemma int_cutoff_bound (sz : IntSize) : 2 ^ 31 <= 2 ^ (bits sz - 1).
Proof. destruct sz; simpl; lia. Qed.

Lemma pow16_le (s : string) : len s <= 7 -> 16 ^ len s <= 2 ^ 28.
Proof.
  intros H. change (2 ^ 28) with (16 ^ 7).
  apply Z.pow_le_mono_r; lia.
Qed.

Lemma ParseUint_hex (sz : IntSize) (s : string) :
  all_hex s = true -> 0 < len s <= 7 ->
  strconv.ParseUint sz s 16 0 = (base16 s 0, None) /\
  0 <= base16 s 0 < 16 ^ len s.
Proof.
  intros Hhex Hlen. unfold strconv.ParseUint.
  destruct s as [| c s]; [change (len "") with 0 in Hlen; lia |].
  cbn [String.eqb]. change (0 =? 0) with true. cbv iota.
  pose proof (pow16_le _ (proj2 Hlen)) as Hpow.
  destruct (ParseUint_loop_hex (2 ^ bits sz - 1) (String c s)
              (maxVal_bound sz) 0 Hhex ltac:(lia) ltac:(lia)) as [Hloop Hval].
  split; [exact Hloop | lia].
Qed.

Lemma ParseUint_non_hex (sz : IntSize) (s : string) :
  all_hex s = false -> len s <= 7 ->
  strconv.ParseUint sz s 16 0 = (0, Some ErrSyntax).
Proof.
  intros Hhex Hlen. unfold strconv.ParseUint.
  destruct s as [| c s]; [reflexivity |].
  cbn [String.eqb]. change (0 =? 0) with true. cbv iota.
  pose proof (pow16_le _ Hlen) as Hpow.
  apply (ParseUint_loop_non_hex (2 ^ bits sz - 1) (String c s)
           (maxVal_bound sz) 0 Hhex); lia.
Qed.

Lemma is_sign_false (c : ascii) :
  is_sign c = false -> Ascii.eqb c "+" = false /\ Ascii.eqb c "-" = false.
Proof. unfold is_sign. intros H. apply orb_false_elim in H. exact H. Qed.

Lemma wrap64_small (x : Z) : - 2 ^ 28 <= x <= 2 ^ 28 -> wrap 64 x = x.
Proof.
  intros H. apply wrap_small; [lia |].
  change (2 ^ (64 - 1)) with 9223372036854775808. lia.
Qed.

Lemma ParseInt_hex (sz : IntSize) (s : string) :
  all_hex s = true -> 0 < len s <= 7 ->
  strconv.ParseInt sz s 16 0 = (base16 s 0, None) /\
  0 <= base16 s 0 < 16 ^ len s.
Proof.
  intros Hhex Hlen.
  destruct (ParseUint_hex sz s Hhex Hlen) as [HU Hval].
  split; [| exact Hval].
  destruct s as [| c s]; [change (len "") with 0 in Hlen; lia |].
  assert (Hc : is_hex_digit c = true)
    by (simpl in Hhex; apply andb_prop in Hhex; tauto).
  destruct (is_sign_false c (hex_not_sign c Hc)) as [Hplus Hminus].
  unfold strconv.ParseInt. rewrite Hplus, Hminus, HU.
  pose proof (pow16_le _ (proj2 Hlen)) as Hpow.
  cbv zeta. change (0 =? 0) with true. cbv iota.
  destruct (Z.geb_spec (base16 (String c s) 0) (2 ^ (bits sz - 1))) as [H | _];
    [pose proof (int_cutoff_bound sz); lia |].
  cbn [negb andb]. rewrite wrap64_small by lia. reflexivity.
Qed.

Lemma ParseInt_signed_hex (sz : IntSize) (c : ascii) (s : string) :
  is_sign c = true -> all_hex s = true -> 0 < len s <= 7 ->
  strconv.ParseInt sz (String c s) 16 0 =
    (if Ascii.eqb c "-" then - base16 s 0 else base16 s 0, None) /\
  0 <= base16 s 0 < 16 ^ len s.
Proof.
  intros Hc Hhex Hlen.
  destruct (ParseUint_hex sz s Hhex Hlen) as [HU Hval].
  split; [| exact Hval].
  pose proof (pow16_le _ (proj2 Hlen)) as Hpow.
  pose proof (int_cutoff_bound sz) as Hcut.
  unfold strconv.ParseInt.
  assert (Hge : (base16 s 0 >=? 2 ^ (bits sz - 1)) = false)
    by (destruct (Z.geb_spec (base16 s 0) (2 ^ (bits sz - 1))); [lia | reflexivity]).
  assert (Hgt : (base16 s 0 >? 2 ^ (bits sz - 1)) = false)
    by (destruct (Z.gtb_spec (base16 s 0) (2 ^ (bits sz - 1))); [lia | reflexivity]).
  destruct (Ascii.eqb c "+") eqn:Hplus.
  - assert (Hminus : Ascii.eqb c "-" = false)
      by (apply Ascii.eqb_eq in Hplus; subst c; reflexivity).
    rewrite Hminus, HU. cbv zeta. change (0 =? 0) with true. cbv iota.
    rewrite Hge. cbn [negb andb].
    rewrite wrap64_small by lia. reflexivity.
  - unfold is_sign in Hc. rewrite Hplus in Hc. cbn [orb] in Hc.
    rewrite Hc, HU. cbv zeta. change (0 =? 0) with true. cbv iota.
    rewrite Hgt. cbn [negb andb].
    rewrite (wrap64_small (base16 s 0)) by lia.
    rewrite wrap64_small by lia. reflexivity.
Qed.

Lemma ParseInt_syntax (sz : IntSize) (s : string) :
  all_hex s = false -> signed_hex s = false -> len s <= 7 ->
  strconv.ParseInt sz s 16 0 = (0, Some (mkNumError "ParseInt" s ErrSyntax)).
Proof.
  intros Hhex Hsigned Hlen.
  destruct s as [| c s]; [reflexivity |].
  unfold strconv.ParseInt.
  assert (Hlen' : len s <= 7) by (rewrite len_cons in Hlen; lia).
  destruct (is_sign c) eqn:Hc.
  - cbn [signed_hex] in Hsigned. rewrite Hc in Hsigned. cbn [andb] in Hsigned.
    pose proof (ParseUint_non_hex sz s Hsigned Hlen') as HU.
    unfold is_sign in Hc.
    destruct (Ascii.eqb c "+"); [rewrite HU; reflexivity |].
    cbn [orb] in Hc. rewrite Hc, HU. reflexivity.
  - destruct (is_sign_false c Hc) as [Hplus Hminus].
    rewrite Hplus, Hminus, (ParseUint_non_hex sz _ Hhex Hlen). reflexivity.
Qed.

(** ** [hexToColorInt] *)

Lemma pow16_6 (s : string) : len s = 6 -> 16 ^ len s = 16777216.
Proof. intros ->. reflexivity. Qed.

Lemma hexToColorInt_parse_hex (sz : IntSize) (d : string) :
  all_hex d = true -> len d = 6 ->
  hexToColorInt_parse sz d = (base16 d 0, None) /\ 0 <= base16 d 0 <= 16777215.
Proof.
  intros Hhex Hlen.
  destruct (ParseInt_hex sz d Hhex ltac:(lia)) as [HP Hval].
  rewrite (pow16_6 d Hlen) in Hval.
  unfold hexToColorInt_parse. rewrite HP, wrap_int_small by lia.
  split; [reflexivity | lia].
Qed.

Lemma hexToColorInt_parse_signed (sz : IntSize) (c : ascii) (d : string) :
  is_sign c = true -> all_hex d = true -> len d = 5 ->
  hexToColorInt_parse sz (String c d) =
    (if Ascii.eqb c "-" then - base16 d 0 else base16 d 0, None) /\
  0 <= base16 d 0 <= 1048575.
Proof.
  intros Hc Hhex Hlen.
  destruct (ParseInt_signed_hex sz c d Hc Hhex ltac:(lia)) as [HP Hval].
  rewrite Hlen in Hval. change (16 ^ 5) with 1048576 in Hval.
  unfold hexToColorInt_parse. rewrite HP.
  rewrite wrap_int_small by (destruct (Ascii.eqb c "-"); lia).
  split; [reflexivity | lia].
Qed.

Lemma hexToColorInt_parse_syntax (sz : IntSize) (p : string) :
  all_hex p = false -> signed_hex p = false -> len p = 6 ->
  hexToColorInt_parse sz p = (0, Some (errHexParse p)).
Proof.
  intros Hhex Hsigned Hlen. unfold hexToColorInt_parse.
  rewrite (ParseInt_syntax sz p Hhex Hsigned) by lia. reflexivity.
Qed.

(** Which branch of the first [if] a string takes. *)
Lemma hexToColorInt_len6 (sz : IntSize) (p : string) :
  len p = 6 -> hexToColorInt sz p = hexToColorInt_parse sz p.
Proof.
  intros Hlen. destruct p as [| c p]; [discriminate Hlen |].
  unfold hexToColorInt. rewrite Hlen. reflexivity.
Qed.

Lemma hexToColorInt_hash (sz : IntSize) (p : string) :
  len p = 6 -> hexToColorInt sz (String "#" p) = hexToColorInt_parse sz p.
Proof.
  intros Hlen. unfold hexToColorInt. rewrite len_cons, Hlen. reflexivity.
Qed.

Lemma hexToColorInt_format (sz : IntSize) (s : string) :
  len s <> 6 -> len (strip_hash s) <> 6 ->
  hexToColorInt sz s = (0, Some errHexFormat).
Proof.
  intros H6 Hstrip. destruct s as [| c s]; [reflexivity |].
  unfold hexToColorInt.
  destruct (Z.eqb_spec (len (String c s)) 7) as [H7 | H7].
  - destruct (Ascii.eqb c "#") eqn:Hc.
    + exfalso. apply Hstrip. cbn [strip_hash]. rewrite Hc.
      rewrite len_cons in H7. lia.
    + cbn [andb]. destruct (Z.eqb_spec (len (String c s)) 6); [lia | reflexivity].
  - cbn [andb]. destruct (Z.eqb_spec (len (String c s)) 6); [lia | reflexivity].
Qed.

(** On success the parsed payload was either six hex digits or a sign and
    five hex digits; only the first kind is a color. *)
Lemma hexToColorInt_parse_success (sz : IntSize) (p : string) (v : Z) :
  len p = 6 -> signed_hex p = false ->
  hexToColorInt_parse sz p = (v, None) -> in_color_range v.
Proof.
  intros Hlen Hsigned Hok. destruct (all_hex p) eqn:Hhex.
  - destruct (hexToColorInt_parse_hex sz p Hhex Hlen) as [E Hval].
    rewrite E in Hok. injection Hok as <-. exact Hval.
  - rewrite (hexToColorInt_parse_syntax sz p Hhex Hsigned Hlen) in Hok.
    discriminate Hok.
Qed.

Lemma hexToColorInt_success (sz : IntSize) (s : string) (v : Z) :
  signed_hex s = false -> signed_hex (strip_hash s) = false ->
  hexToColorInt sz s = (v, None) -> in_color_range v.
Proof.
  intros Hs Hstrip Hok.
  destruct (Z.eq_dec (len s) 6) as [H6 | H6].
  - rewrite (hexToColorInt_len6 sz s H6) in Hok.
    exact (hexToColorInt_parse_success sz s v H6 Hs Hok).
  - destruct (Z.eq_dec (len (strip_hash s)) 6) as [H6' | H6'].
    + destruct s as [| c s]; [discriminate H6' |].
      cbn [strip_hash] in *. destruct (Ascii.eqb c "#") eqn:Hc; [| contradiction].
      apply Ascii.eqb_eq in Hc. subst c.
      rewrite (hexToColorInt_hash sz s H6') in Hok.
      exact (hexToColorInt_parse_success sz s v H6' Hstrip Hok).
    + rewrite (hexToColorInt_format sz s H6 H6') in Hok. discriminate Hok.
Qed.

(** ** [rgbToInt] *)

Lemma lor_bound (n a b : Z) :
  0 < n -> 0 <= a < 2 ^ n -> 0 <= b < 2 ^ n -> 0 <= Z.lor a b < 2 ^ n.
Proof.
  intros Hn Ha Hb.
  assert (Hnn : 0 <= Z.lor a b) by (apply Z.lor_nonneg; lia).
  split; [exact Hnn |].
  destruct (Z.eq_dec (Z.lor a b) 0) as [E | E].
  - rewrite E. apply Z.pow_pos_nonneg; lia.
  - apply Z.log2_lt_pow2; [lia |].
    rewrite Z.log2_lor by lia.
    assert (La : Z.log2 a < n).
    { destruct (Z.eq_dec a 0) as [-> | Hne]; [simpl; lia |].
      apply Z.log2_lt_pow2; lia. }
    assert (Lb : Z.log2 b < n).
    { destruct (Z.eq_dec b 0) as [-> | Hne]; [simpl; lia |].
      apply Z.log2_lt_pow2; lia. }
    lia.
Qed.

Lemma channel_ok_spec (c : Z) : channel_ok c = true <-> 0 <= c <= 255.
Proof. unfold channel_ok. rewrite andb_true_iff, !Z.leb_le. tauto. Qed.

Lemma channels_ok_spec (rgb : RGB) :
  channels_ok rgb = true <->
  0 <= R rgb <= 255 /\ 0 <= G rgb <= 255 /\ 0 <= B rgb <= 255.
Proof.
  unfold channels_ok. rewrite !andb_true_iff, !channel_ok_spec. tauto.
Qed.

(** The range test of lines 238-240 is the negation of [channels_ok]. *)
Lemma rgb_guard (rgb : RGB) :
  (R rgb >? maxRGBValue) || (R rgb <? minRGBValue) ||
  (G rgb >? maxRGBValue) || (G rgb <? minRGBValue) ||
  (B rgb >? maxRGBValue) || (B rgb <? minRGBValue) = negb (channels_ok rgb).
Proof.
  unfold channels_ok, channel_ok, maxRGBValue, minRGBValue.
  repeat match goal with
         | |- context [?a >? ?b] => destruct (Z.gtb_spec a b)
         | |- context [?a <? ?b] => destruct (Z.ltb_spec a b)
         | |- context [?a <=? ?b] => destruct (Z.leb_spec a b)
         end; try reflexivity; lia.
Qed.

Lemma shl_int_channel (sz : IntSize) (c k : Z) :
  0 <= c <= 255 -> 0 <= k <= 16 -> 
  shl_int sz c k = Z.shiftl c k /\ 0 <= Z.shiftl c k < 2 ^ 24.
Proof.
  intros Hc Hk. unfold shl_int.
  assert (Hs : 0 <= Z.shiftl c k < 2 ^ 24).
  { rewrite Z.shiftl_mul_pow2 by lia.
    assert (0 < 2 ^ k <= 2 ^ 16)
      by (split; [apply Z.pow_pos_nonneg; lia | apply Z.pow_le_mono_r; lia]).
    change (2 ^ 16) with 65536 in *. change (2 ^ 24) with 16777216. nia. }
  split; [apply wrap_int_small; lia | exact Hs].
Qed.

Lemma rgbToInt_ok (sz : IntSize) (rgb : RGB) :
  channels_ok rgb = true ->
  rgbToInt sz rgb =
    (Z.lor (Z.lor (Z.shiftl (R rgb) 16) (Z.shiftl (G rgb) 8)) (B rgb), None) /\
  in_color_range
    (Z.lor (Z.lor (Z.shiftl (R rgb) 16) (Z.shiftl (G rgb) 8)) (B rgb)).
Proof.
  intros Hok. unfold rgbToInt. rewrite rgb_guard, Hok. cbn [negb].
  apply channels_ok_spec in Hok as (Hr & Hg & Hb).
  destruct (shl_int_channel sz (R rgb) 16 Hr ltac:(lia)) as [Er Br].
  destruct (shl_int_channel sz (G rgb) 8 Hg ltac:(lia)) as [Eg Bg].
  rewrite Er, Eg. split; [reflexivity |].
  pose proof (lor_bound 24 _ _ ltac:(lia) Br Bg) as B1.
  pose proof (lor_bound 24 _ (B rgb) ltac:(lia) B1
                ltac:(change (2 ^ 24) with 16777216; lia)) as B2.
  change (2 ^ 24) with 16777216 in B2. unfold in_color_range. lia.
Qed.

Lemma rgbToInt_err (sz : IntSize) (rgb : RGB) :
  channels_ok rgb = false ->
  rgbToInt sz rgb =
    (Z.lor (Z.lor (shl_int sz (R rgb) 16) (shl_int sz (G rgb) 8)) (B rgb),
     Some (Errorf "rgb color can only be from 0 to 255" [])).
Proof. intros Hok. unfold rgbToInt. rewrite rgb_guard, Hok. reflexivity. Qed.

(** ** [CreateEmbed] *)

Lemma CreateEmbed_string (sz : IntSize) (title description url s : string) :
  CreateEmbed sz title description url (ColorString s) =
  match hexToColorInt sz s with
  | (_, Some err) => (Embed_zero, Some err)
  | (v, None) => (fresh_embed title description url v, None)
  end.
Proof.
  unfold CreateEmbed. destruct (hexToColorInt sz s) as [v [err |]]; reflexivity.
Qed.

Lemma CreateEmbed_rgb (sz : IntSize) (title description url : string)
  (rgb : RGB) :
  CreateEmbed sz title description url (ColorRGB rgb) =
  match rgbToInt sz rgb with
  | (_, Some err) => (Embed_zero, Some err)
  | (v, None) => (fresh_embed title description url v, None)
  end.
Proof.
  unfold CreateEmbed. destruct (rgbToInt sz rgb) as [v [err |]]; reflexivity.
Qed.

(** X13.  Apart from signed hex strings (a sign and five hex digits, alone
    or after ['#']), a successful [CreateEmbed] stores a color in
    [0, 16777215], whichever of the three forms the color is given in. *)
Lemma CreateEmbed_color_range (sz : IntSize) (title description url : string)
  (color : colorEmbedTypes) (e : Embed) :
  match color with
  | ColorString s => signed_hex s = false /\ signed_hex (strip_hash s) = false
  | _ => True
  end ->
  CreateEmbed sz title description url color = (e, None) ->
  in_color_range (Color e).
Proof.
  intros Hcolor Hok. destruct color as [s | v | rgb].
  - rewrite CreateEmbed_string in Hok. destruct Hcolor as [Hs Hstrip].
    destruct (hexToColorInt sz s) as [v [err |]] eqn:E; [discriminate Hok |].
    injection Hok as <-. exact (hexToColorInt_success sz s v Hs Hstrip E).
  - unfold CreateEmbed in Hok.
    destruct ((v >? maxDecimalRGBValue) || (v <? minDecimalRGBValue)) eqn:G;
      [discriminate Hok |].
    injection Hok as <-. apply orb_false_elim in G as [G1 G2].
    unfold maxDecimalRGBValue in G1. unfold minDecimalRGBValue in G2.
    rewrite Z.gtb_ltb, Z.ltb_ge in G1. rewrite Z.ltb_ge in G2.
    unfold in_color_range. cbn [Color]. lia.
  - rewrite CreateEmbed_rgb in Hok.
    destruct (channels_ok rgb) eqn:Hrgb.
    + destruct (rgbToInt_ok sz rgb Hrgb) as [E Hrange]. rewrite E in Hok.
      injection Hok as <-. exact Hrange.
    + rewrite (rgbToInt_err sz rgb Hrgb) in Hok. discriminate Hok.
Qed.

(** C1 (the code departs from the claim).  The claim is that every color with
    which [CreateEmbed] succeeds is stored as a value in [0, 16777215].  The
    hex string ["-00001"] has six bytes, [strconv.ParseInt] reads its sign,
    and [CreateEmbed] succeeds with the color [-1], on either size of
    [int]. *)
Theorem CreateEmbed_signed_hex_color (sz : IntSize) :
  CreateEmbed sz "Title" "Description" "https://example.com"
              (ColorString "-00001")
  = (fresh_embed "Title" "Description" "https://example.com" (-1), None) /\
  ~ in_color_range
      (Color (fst (CreateEmbed sz "Title" "Description" "https://example.com"
                               (ColorString "-00001")))).
Proof.
  assert (E : CreateEmbed sz "Title" "Description" "https://example.com"
                (ColorString "-00001")
              = (fresh_embed "Title" "Description" "https://example.com" (-1),
                 None))
    by (destruct sz; vm_compute; reflexivity).
  split; [exact E |].
  rewrite E. unfold in_color_range. cbn. lia.
Qed.

(** C2, as amended.  Six hex digits, alone or after one ['#'], resolve to
    their base-16 value.  A string whose length is not 6, before and after
    a leading ['#'] is stripped, fails with the format error.  A six-byte
    payload (the string itself, or what follows the ['#'] of a seven-byte
    string) that is neither six hex digits nor a sign followed by five hex
    digits fails with the parse error, which is not the format error; this
    covers a six-byte string that begins with ['#']. *)
Theorem hexToColorInt_cases (sz : IntSize) :
  (forall d, all_hex d = true -> len d = 6 ->
     hexToColorInt sz d = (base16 d 0, None) /\
     hexToColorInt sz (String "#" d) = (base16 d 0, None)) /\
  (forall s, len s <> 6 -> len (strip_hash s) <> 6 ->
     hexToColorInt sz s = (0, Some errHexFormat)) /\
  (forall p, len p = 6 -> all_hex p = false -> signed_hex p = false ->
     hexToColorInt sz p = (0, Some (errHexParse p)) /\
     hexToColorInt sz (String "#" p) = (0, Some (errHexParse p)) /\
     errHexParse p <> errHexFormat).
Proof.
  split; [| split].
  - intros d Hhex Hlen.
    rewrite hexToColorInt_len6, hexToColorInt_hash by exact Hlen.
    destruct (hexToColorInt_parse_hex sz d Hhex Hlen) as [E _].
    split; exact E.
  - intros s H6 Hstrip. exact (hexToColorInt_format sz s H6 Hstrip).
  - intros p Hlen Hhex Hsigned.
    rewrite hexToColorInt_len6, hexToColorInt_hash by exact Hlen.
    pose proof (hexToColorInt_parse_syntax sz p Hhex Hsigned Hlen) as E.
    split; [exact E |]. split; [exact E | discriminate].
Qed.

Lemma hexToColorInt_cases_witness :
  hexToColorInt Int64 "ff5733" = (16734003, None) /\
  hexToColorInt Int64 "#ff5733" = (16734003, None) /\
  hexToColorInt Int64 "fff" = (0, Some errHexFormat) /\
  hexToColorInt Int64 "ff573g" = (0, Some (errHexParse "ff573g")) /\
  hexToColorInt Int64 "#12345" = (0, Some (errHexParse "#12345")).
Proof.
  destruct (hexToColorInt_cases Int64) as (Hdigits & Hformat & Hparse).
  destruct (Hdigits "ff5733" eq_refl eq_refl) as [E1 E2].
  destruct (Hparse "ff573g" eq_refl eq_refl eq_refl) as [E3 _].
  destruct (Hparse "#12345" eq_refl eq_refl eq_refl) as [E4 _].
  split; [exact E1 |]. split; [exact E2 |].
  split; [apply (Hformat "fff"); vm_compute; discriminate |].
  split; [exact E3 | exact E4].
Defined.

(** C2 as stated fails twice.  ["#12345"] has length 5 once its ['#'] is
    stripped, and fails with the parse error, not the format error.
    ["+12345"] has length 6 and the byte ['+'] is not a hex digit, and it
    does not fail. *)
Lemma hexToColorInt_counterexample :
  (len (strip_hash "#12345") <> 6 /\
   hexToColorInt Int64 "#12345" <> (0, Some errHexFormat)) /\
  (len "+12345" = 6 /\ all_hex "+12345" = false /\
   hexToColorInt Int64 "+12345" = (74565, None)).
Proof.
  split; [split | split; [| split]].
  - vm_compute. discriminate.
  - vm_compute. discriminate.
  - reflexivity.
  - reflexivity.
  - vm_compute. reflexivity.
Qed.

(** C3.  With every channel in [0, 255], [CreateEmbed] succeeds and stores
    [(R<<16)|(G<<8)|B]; with a channel outside, it fails with the RGB range
    error, and [rgbToInt] returns the packed integer (shifts as Go computes
    them on [int]) together with that error. *)
Theorem CreateEmbed_rgb_cases (sz : IntSize) (title description url : string)
  (r g b : Z) :
  (0 <= r <= 255 /\ 0 <= g <= 255 /\ 0 <= b <= 255 ->
   CreateEmbed sz title description url (ColorRGB (mkRGB r g b)) =
     (fresh_embed title description url
        (Z.lor (Z.lor (Z.shiftl r 16) (Z.shiftl g 8)) b), None)) /\
  (~ (0 <= r <= 255 /\ 0 <= g <= 255 /\ 0 <= b <= 255) ->
   CreateEmbed sz title description url (ColorRGB (mkRGB r g b)) =
     (Embed_zero, Some (Errorf "rgb color can only be from 0 to 255" [])) /\
   rgbToInt sz (mkRGB r g b) =
     (Z.lor (Z.lor (shl_int sz r 16) (shl_int sz g 8)) b,
      Some (Errorf "rgb color can only be from 0 to 255" []))).
Proof.
  split; intros H.
  - rewrite CreateEmbed_rgb.
    destruct (rgbToInt_ok sz (mkRGB r g b)) as [E _];
      [apply channels_ok_spec; exact H |].
    rewrite E. reflexivity.
  - assert (Hbad : channels_ok (mkRGB r g b) = false).
    { destruct (channels_ok (mkRGB r g b)) eqn:E; [| reflexivity].
      apply channels_ok_spec in E. contradiction. }
    rewrite CreateEmbed_rgb, (rgbToInt_err sz _ Hbad). split; reflexivity.
Qed.

Lemma CreateEmbed_rgb_cases_witness :
  CreateEmbed Int64 "t" "d" "u" (ColorRGB (mkRGB 111 222 77)) =
    (fresh_embed "t" "d" "u" 7331405, None) /\
  CreateEmbed Int64 "t" "d" "u" (ColorRGB (mkRGB 256 0 0)) =
    (Embed_zero, Some (Errorf "rgb color can only be from 0 to 255" [])) /\
  rgbToInt Int64 (mkRGB 256 0 0) =
    (16777216, Some (Errorf "rgb color can only be from 0 to 255" [])).
Proof.
  split.
  - apply (proj1 (CreateEmbed_rgb_cases Int64 "t" "d" "u" 111 222 77)). lia.
  - apply (proj2 (CreateEmbed_rgb_cases Int64 "t" "d" "u" 256 0 0)). lia.
Defined.

(** C4.  For an integer color [v], [CreateEmbed] succeeds exactly when
    [0 <= v <= 16777215]; it then stores [v] itself; otherwise it fails with
    the error whose message names the bounds 0 and 16777215. *)
Theorem CreateEmbed_int_cases (sz : IntSize) (title description url : string)
  (v : Z) :
  (snd (CreateEmbed sz title description url (ColorInt v)) = None <->
   0 <= v <= 16777215) /\
  (0 <= v <= 16777215 ->
   CreateEmbed sz title description url (ColorInt v) =
     (fresh_embed title description url v, None)) /\
  (~ 0 <= v <= 16777215 ->
   CreateEmbed sz title description url (ColorInt v) =
     (Embed_zero,
      Some (Errorf "you can only use numbers from 0 to 16777215" []))).
Proof.
  unfold CreateEmbed, maxDecimalRGBValue, minDecimalRGBValue.
  destruct (Z.gtb_spec v 16777215); destruct (Z.ltb_spec v 0); cbn;
    (split; [split; [try discriminate; intros _; lia | intros; try reflexivity; lia]
            | split; intros; try reflexivity; lia]).
Qed.

Lemma CreateEmbed_int_cases_witness :
  CreateEmbed Int64 "t" "d" "u" (ColorInt 16777215) =
    (fresh_embed "t" "d" "u" 16777215, None) /\
  CreateEmbed Int64 "t" "d" "u" (ColorInt 16777216) =
    (Embed_zero,
     Some (Errorf "you can only use numbers from 0 to 16777215" [])).
Proof.
  split.
  - apply (proj1 (proj2 (CreateEmbed_int_cases Int64 "t" "d" "u" 16777215))).
    lia.
  - apply (proj2 (proj2 (CreateEmbed_int_cases Int64 "t" "d" "u" 16777216))).
    lia.
Defined.

(** ** [CreateWebhook] *)

(** [CreateWebhook] succeeds exactly when [len(content) <= 2000], the number
    of bytes of the content; it then returns the content, username and
    avatar URL it was given; otherwise the error carries [len(content)]. *)
Theorem CreateWebhook_cases (content username avatarURL : string) :
  (snd (CreateWebhook content username avatarURL) = None <->
   len content <= 2000) /\
  (len content <= 2000 ->
   CreateWebhook content username avatarURL =
     (mkWebhook content username avatarURL [], None)) /\
  (2000 < len content ->
   CreateWebhook content username avatarURL =
     (Webhook_zero,
      Some (Errorf
        "the length of the content cannot exceed 2000 characters (your length: %d)"
        [ArgD (len content)]))).
Proof.
  unfold CreateWebhook.
  destruct (Z.gtb_spec (len content) 2000) as [Hlong | Hshort]; cbn [snd].
  - split; [split; [discriminate | lia] | split; [lia | reflexivity]].
  - split; [split; [lia | reflexivity] | split; [reflexivity | lia]].
Qed.

Lemma CreateWebhook_cases_witness :
  CreateWebhook (replicate 2000 "a") "bot" "" =
    (mkWebhook (replicate 2000 "a") "bot" "" [], None) /\
  CreateWebhook (replicate 2001 "a") "bot" "" =
    (Webhook_zero,
     Some (Errorf
       "the length of the content cannot exceed 2000 characters (your length: %d)"
       [ArgD 2001])).
Proof.
  split.
  - apply (proj1 (proj2 (CreateWebhook_cases (replicate 2000 "a") "bot" ""))).
    vm_compute. discriminate.
  - apply (proj2 (proj2 (CreateWebhook_cases (replicate 2001 "a") "bot" ""))).
    vm_compute. reflexivity.
Defined.

(** ** [json.Marshal] *)

(** What the struct encoder does omit: a member of the output comes from a
    field that is not both tagged [omitempty] and empty. *)
Lemma encode_struct_members (fs : list (string * bool * json.gvalue))
  (name : string) (j : json.JSON) :
  In (name, j) (match json.encode (json.GStruct fs) with
                | json.JObject members => members
                | _ => []
                end) ->
  exists omitEmpty fv,
    In (name, omitEmpty, fv) fs /\ j = json.encode fv /\
    (omitEmpty = true -> json.isEmptyValue fv = false).
Proof.
  cbn [json.encode]. induction fs as [| [[n o] fv] fs IH]; cbn [flat_map].
  - intros [].
  - intros Hin. apply in_app_or in Hin as [Hin | Hin].
    + destruct (o && json.isEmptyValue fv) eqn:E; [destruct Hin |].
      destruct Hin as [Hin | []]. injection Hin as Hn Hj.
      exists o, fv. split; [left; rewrite Hn; reflexivity |].
      split; [symmetry; exact Hj |].
      intros ->. exact E.
    + destruct (IH Hin) as (o' & fv' & Hfs & Hj & Hne).
      exists o', fv'. split; [right; exact Hfs | split; assumption].
Qed.

(** A struct is never empty for [omitempty], whatever its fields hold. *)
Lemma struct_never_empty (e : Embed) :
  json.isEmptyValue (json.of_Footer (Footer_ e)) = false /\
  json.isEmptyValue (json.of_Image (Image_ e)) = false /\
  json.isEmptyValue (json.of_Thumbnail (Thumbnail_ e)) = false /\
  json.isEmptyValue (json.of_Author (Author_ e)) = false.
Proof. repeat split. Qed.

(** X18.  Every embed is encoded with its four sub-objects ["footer"],
    ["image"], ["thumbnail"] and ["author"], set or not: each is a member of
    the embed's object, holding the encoding of the sub-object. *)
Lemma encode_Embed_subobjects (e : Embed) :
  let j := json.encode (json.of_Embed e) in
  json.member "footer" j = Some (json.encode (json.of_Footer (Footer_ e))) /\
  json.member "image" j = Some (json.encode (json.of_Image (Image_ e))) /\
  json.member "thumbnail" j =
    Some (json.encode (json.of_Thumbnail (Thumbnail_ e))) /\
  json.member "author" j = Some (json.encode (json.of_Author (Author_ e))).
Proof.
  cbv zeta. unfold json.of_Embed, json.member.
  cbn [json.encode flat_map json.isEmptyValue andb].
  destruct (len (Title e) =? 0), (len (Description e) =? 0),
    (len (URL e) =? 0), (Color e =? 0), (len (Timestamp e) =? 0);
    cbn [app find fst snd String.eqb Ascii.eqb Bool.eqb];
    repeat split.
Qed.

(** C6 (the code departs from the claim).  The claim is that an unset footer,
    image, thumbnail and author are left out of the wire JSON.  A webhook
    with one embed made by [CreateEmbed], on which none of the four was set,
    is encoded with all four as empty objects. *)
Theorem Marshal_unset_subobjects (sz : IntSize) :
  json.Marshal
    (AddEmbed (fst (CreateWebhook "Hello" "" ""))
              (fst (CreateEmbed sz "Title" "" "" (ColorInt 255))))
  = (json.JObject
       [("content", json.JString "Hello");
        ("embeds",
         json.JArray
           [json.JObject
              [("title", json.JString "Title");
               ("color", json.JNumber 255);
               ("footer", json.JObject []);
               ("image", json.JObject []);
               ("thumbnail", json.JObject []);
               ("author", json.JObject [])]])],
     None).
Proof. destruct sz; vm_compute; reflexivity. Qed.

(** ** [SetTimestamp] *)

Lemma SetTimestamp_cases (e : Embed) (timestamp : string) :
  (snd (SetTimestamp e timestamp) = None <->
   isValidISO8601 timestamp = true) /\
  (isValidISO8601 timestamp = true ->
   SetTimestamp e timestamp = (set_Timestamp e timestamp, None) /\
   Timestamp (fst (SetTimestamp e timestamp)) = timestamp) /\
  (isValidISO8601 timestamp = false ->
   SetTimestamp e timestamp =
     (e, Some (Errorf "timestamp is not ISO8601 timestamp" []))).
Proof.
  unfold SetTimestamp. destruct (isValidISO8601 timestamp); cbn [snd fst].
  - split; [tauto | split; [intros _; split; reflexivity | discriminate]].
  - split; [split; discriminate | split; [discriminate | reflexivity]].
Qed.

(** C7 (the code departs from the claim).  The claim is that [SetTimestamp]
    succeeds only on a text of the strict profile, whose hour has two
    digits.  The layout parser reads the hour with one digit or two, so
    ["2024-01-15T1:30:00Z"] is stored on any embed, with no error. *)
Theorem SetTimestamp_one_digit_hour (e : Embed) :
  strict_profile "2024-01-15T1:30:00Z" = false /\
  SetTimestamp e "2024-01-15T1:30:00Z" =
    (set_Timestamp e "2024-01-15T1:30:00Z", None).
Proof. split; reflexivity. Qed.

(** ** [SendWebhook] *)

(** C8.  [SendWebhook] returns nil exactly when the POST is answered with
    status 200 or 204; a failure of the POST is returned as an error holding
    the cause; any other status is returned as an error holding the status
    code. *)
Theorem SendWebhook_cases
  (http_Post : string -> string -> json.JSON -> post_result)
  (webhookUrl : string) (webhookPayload : Webhook) :
  let answer :=
    http_Post webhookUrl "application/json"
              (fst (json.Marshal webhookPayload)) in
  (SendWebhook http_Post webhookUrl webhookPayload = None <->
   answer = Response 200 \/ answer = Response 204) /\
  (forall cause, answer = PostError cause ->
     SendWebhook http_Post webhookUrl webhookPayload =
       Some (Errorf "failed to post to Discord: %v" [ArgError cause])) /\
  (forall code, answer = Response code -> code <> 200 -> code <> 204 ->
     SendWebhook http_Post webhookUrl webhookPayload =
       Some (Errorf "discord webhook returned status %d" [ArgD code])).
Proof.
  cbv zeta. unfold SendWebhook, json.Marshal, StatusOK, StatusNoContent.
  cbn [fst].
  destruct (http_Post webhookUrl "application/json"
              (json.encode (json.of_Webhook webhookPayload)))
    as [code | cause].
  - destruct (Z.eqb_spec code 200) as [-> | H200];
      [| destruct (Z.eqb_spec code 204) as [-> | H204]]; cbn [negb andb].
    + split; [split; [left; reflexivity | reflexivity] |].
      split; [discriminate | intros c [= <-] H; contradiction].
    + split; [split; [right; reflexivity | reflexivity] |].
      split; [discriminate | intros c [= <-] _ H; contradiction].
    + split; [split; [discriminate | intros [[= E] | [= E]]; contradiction] |].
      split; [discriminate | intros c [= <-] _ _; reflexivity].
  - split; [split; [discriminate | intros [E | E]; discriminate E] |].
    split; [intros c [= <-]; reflexivity | discriminate].
Qed.

Lemma SendWebhook_cases_witness :
  SendWebhook (fun _ _ _ => Response 204) "https://example.com/hook"
              (mkWebhook "Hello" "" "" []) = None /\
  SendWebhook (fun _ _ _ => Response 400) "https://example.com/hook"
              (mkWebhook "Hello" "" "" []) =
    Some (Errorf "discord webhook returned status %d" [ArgD 400]) /\
  SendWebhook (fun _ _ _ => PostError "connection refused")
              "https://example.com/hook" (mkWebhook "Hello" "" "" []) =
    Some (Errorf "failed to post to Discord: %v"
                 [ArgError "connection refused"]).
Proof.
  split; [| split].
  - apply (proj1 (SendWebhook_cases (fun _ _ _ => Response 204)
                    "https://example.com/hook" (mkWebhook "Hello" "" "" []))).
    right. reflexivity.
  - apply (proj2 (proj2 (SendWebhook_cases (fun _ _ _ => Response 400)
                    "https://example.com/hook" (mkWebhook "Hello" "" "" [])))
             400); [reflexivity | lia | lia].
  - apply (proj1 (proj2 (SendWebhook_cases
                    (fun _ _ _ => PostError "connection refused")
                    "https://example.com/hook" (mkWebhook "Hello" "" "" [])))
             "connection refused"). reflexivity.
Defined.

(** ** Field and embed sequences *)

(** C9.  On an embed without fields, [AddField f1] and then
    [AddFields [f2; f3]] leave the fields [f1; f2; f3]; in general both
    operations put what they add after the fields already there, in the
    order given. *)
Theorem AddField_AddFields_order (e : Embed) :
  (forall f1 f2 f3, Fields e = [] ->
     Fields (AddFields (AddField e f1) [f2; f3]) = [f1; f2; f3]) /\
  (forall field, Fields (AddField e field) = (Fields e ++ [field])%list) /\
  (forall fields, Fields (AddFields e fields) = (Fields e ++ fields)%list) /\
  (forall f1 fields,
     Fields (AddFields (AddField e f1) fields) = (Fields e ++ f1 :: fields)%list).
Proof.
  split; [| split; [| split]].
  - intros f1 f2 f3 Hempty. cbn [AddFields AddField set_Fields Fields].
    rewrite Hempty. reflexivity.
  - intros field. reflexivity.
  - intros fields. reflexivity.
  - intros f1 fields. cbn [AddFields AddField set_Fields Fields].
    rewrite <- app_assoc. reflexivity.
Qed.

Lemma AddField_AddFields_order_witness :
  Fields (AddFields (AddField (fresh_embed "t" "d" "u" 255)
                              (CreateField "n1" "v1" true))
                    [CreateField "n2" "v2" true; CreateField "n3" "v3" false])
  = [CreateField "n1" "v1" true; CreateField "n2" "v2" true;
     CreateField "n3" "v3" false].
Proof.
  apply (proj1 (AddField_AddFields_order (fresh_embed "t" "d" "u" 255))).
  reflexivity.
Defined.

(** ** Frame of the mutators *)

(** On the entities as one owner reads them: [SetFooter], [SetImage],
    [SetThumbnail] and [SetAuthor] each replace their own field (the last
    value written is the one kept) and leave the title, description, URL,
    color, timestamp, fields and the other three sub-objects as they were;
    [AddField] and [AddFields] change the field sequence only; [AddEmbed]
    appends to the embeds and leaves the content, username and avatar URL
    as they were. *)
Theorem mutators_frame (e : Embed) (w : Webhook) :
  (forall f f',
     Footer_ (SetFooter e f) = f /\
     SetFooter (SetFooter e f') f = SetFooter e f /\
     same_scalars e (SetFooter e f) /\ same_fields e (SetFooter e f) /\
     same_image e (SetFooter e f) /\ same_thumbnail e (SetFooter e f) /\
     same_author e (SetFooter e f)) /\
  (forall i i',
     Image_ (SetImage e i) = i /\
     SetImage (SetImage e i') i = SetImage e i /\
     same_scalars e (SetImage e i) /\ same_fields e (SetImage e i) /\
     same_footer e (SetImage e i) /\ same_thumbnail e (SetImage e i) /\
     same_author e (SetImage e i)) /\
  (forall t t',
     Thumbnail_ (SetThumbnail e t) = t /\
     SetThumbnail (SetThumbnail e t') t = SetThumbnail e t /\
     same_scalars e (SetThumbnail e t) /\ same_fields e (SetThumbnail e t) /\
     same_footer e (SetThumbnail e t) /\ same_image e (SetThumbnail e t) /\
     same_author e (SetThumbnail e t)) /\
  (forall a a',
     Author_ (SetAuthor e a) = a /\
     SetAuthor (SetAuthor e a') a = SetAuthor e a /\
     same_scalars e (SetAuthor e a) /\ same_fields e (SetAuthor e a) /\
     same_footer e (SetAuthor e a) /\ same_image e (SetAuthor e a) /\
     same_thumbnail e (SetAuthor e a)) /\
  (forall field,
     same_scalars e (AddField e field) /\ same_footer e (AddField e field) /\
     same_image e (AddField e field) /\ same_thumbnail e (AddField e field) /\
     same_author e (AddField e field)) /\
  (forall fields,
     same_scalars e (AddFields e fields) /\
     same_footer e (AddFields e fields) /\
     same_image e (AddFields e fields) /\
     same_thumbnail e (AddFields e fields) /\
     same_author e (AddFields e fields)) /\
  (forall embed,
     Embeds (AddEmbed w embed) = (Embeds w ++ [embed])%list /\
     Content (AddEmbed w embed) = Content w /\
     Username (AddEmbed w embed) = Username w /\
     AvatarURL (AddEmbed w embed) = AvatarURL w).
Proof.
  unfold same_scalars, same_fields, same_footer, same_image, same_thumbnail,
    same_author.
  repeat match goal with
         | |- _ /\ _ => split
         | |- forall _, _ => intro
         end; reflexivity.
Qed.


(** * Further properties of the builder *)

Lemma set_Fields_same (e : Embed) : set_Fields e (Fields e) = e.
Proof. destruct e; reflexivity. Qed.

Lemma fold_AddField (fs : list Field) :
  forall e, fold_left AddField fs e = AddFields e fs.
Proof.
  induction fs as [| f fs IH]; intros e; cbn [fold_left].
  - unfold AddFields. rewrite app_nil_r. symmetry. apply set_Fields_same.
  - rewrite IH. unfold AddFields, AddField, set_Fields. cbn [Fields Title
      Description URL Color Timestamp Footer_ Image_ Thumbnail_ Author_].
    rewrite <- app_assoc. reflexivity.
Qed.

(** X1.  Fields added by several calls end up as by one call: two
    [AddFields] calls are one call with the concatenation, [AddField] one
    at a time over a list is [AddFields] of the list, and [AddFields] of no
    field changes nothing. *)
Theorem AddFields_compose (e : Embed) (fs gs : list Field) :
  AddFields (AddFields e fs) gs = AddFields e (fs ++ gs) /\
  fold_left AddField fs e = AddFields e fs /\
  AddFields e [] = e.
Proof.
  split; [| split].
  - unfold AddFields, set_Fields. cbn [Fields Title Description URL Color
      Timestamp Footer_ Image_ Thumbnail_ Author_].
    rewrite app_assoc. reflexivity.
  - apply fold_AddField.
  - unfold AddFields. rewrite app_nil_r. apply set_Fields_same.
Qed.

Lemma fold_AddEmbed (es : list Embed) :
  forall w,
    Embeds (fold_left AddEmbed es w) = (Embeds w ++ es)%list /\
    Content (fold_left AddEmbed es w) = Content w /\
    Username (fold_left AddEmbed es w) = Username w /\
    AvatarURL (fold_left AddEmbed es w) = AvatarURL w.
Proof.
  induction es as [| e es IH]; intros w; cbn [fold_left].
  - rewrite app_nil_r. repeat split.
  - destruct (IH (AddEmbed w e)) as (HE & HC & HU & HA).
    rewrite HE, HC, HU, HA. cbn [AddEmbed Embeds Content Username AvatarURL].
    rewrite <- app_assoc. repeat split.
Qed.

(** X2.  Embeds added one after the other to a webhook made by
    [CreateWebhook] are kept in the order of the calls, after nothing else,
    and the content (still at most 2000 bytes), username and avatar URL are
    those given to [CreateWebhook]. *)
Theorem AddEmbed_sequence (content username avatarURL : string)
  (es : list Embed) (w : Webhook) :
  CreateWebhook content username avatarURL = (w, None) ->
  fold_left AddEmbed es w = mkWebhook content username avatarURL es /\
  len (Content (fold_left AddEmbed es w)) <= 2000.
Proof.
  intros Hw. unfold CreateWebhook in Hw.
  destruct (Z.gtb_spec (len content) 2000) as [Hlong | Hlen];
    [discriminate Hw |].
  injection Hw as <-.
  destruct (fold_AddEmbed es (mkWebhook content username avatarURL []))
    as (HE & HC & HU & HA).
  cbn [Embeds Content Username AvatarURL app] in *.
  rewrite HC. split; [| exact Hlen].
  destruct (fold_left AddEmbed es (mkWebhook content username avatarURL [])).
  cbn in *. subst. reflexivity.
Qed.

Lemma AddEmbed_sequence_witness :
  fold_left AddEmbed [fresh_embed "a" "" "" 1; fresh_embed "b" "" "" 2]
            (mkWebhook "Hello" "bot" "" []) =
  mkWebhook "Hello" "bot" "" [fresh_embed "a" "" "" 1; fresh_embed "b" "" "" 2].
Proof.
  apply (proj1 (AddEmbed_sequence "Hello" "bot" ""
                  [fresh_embed "a" "" "" 1; fresh_embed "b" "" "" 2]
                  (mkWebhook "Hello" "bot" "" []) eq_refl)).
Defined.

(** X3.  The setters and the field operations can be called in any order:
    each pair of [SetFooter], [SetImage], [SetThumbnail], [SetAuthor] and
    [AddFields] commutes, so an embed depends on the last value given to
    each setter and on the order of the added fields only. *)
Theorem setters_commute (e : Embed) (f : Footer) (i : Image) (t : Thumbnail)
  (a : Author) (fs : list Field) :
  SetFooter (SetImage e i) f = SetImage (SetFooter e f) i /\
  SetFooter (SetThumbnail e t) f = SetThumbnail (SetFooter e f) t /\
  SetFooter (SetAuthor e a) f = SetAuthor (SetFooter e f) a /\
  SetImage (SetThumbnail e t) i = SetThumbnail (SetImage e i) t /\
  SetImage (SetAuthor e a) i = SetAuthor (SetImage e i) a /\
  SetThumbnail (SetAuthor e a) t = SetAuthor (SetThumbnail e t) a /\
  SetFooter (AddFields e fs) f = AddFields (SetFooter e f) fs /\
  SetImage (AddFields e fs) i = AddFields (SetImage e i) fs /\
  SetThumbnail (AddFields e fs) t = AddFields (SetThumbnail e t) fs /\
  SetAuthor (AddFields e fs) a = AddFields (SetAuthor e a) fs.
Proof. repeat split. Qed.

(** X4.  [SetTimestamp] touches the timestamp only: whatever the text, the
    other nine fields are as before; a rejected text leaves the embed as it
    was, so a timestamp set earlier survives a later rejected call. *)
Theorem SetTimestamp_frame (e : Embed) (t1 t2 : string) :
  (let e' := fst (SetTimestamp e t1) in
   Title e' = Title e /\ Description e' = Description e /\ URL e' = URL e /\
   Color e' = Color e /\ same_footer e e' /\ same_image e e' /\
   same_thumbnail e e' /\ same_author e e' /\ same_fields e e') /\
  (isValidISO8601 t2 = false -> fst (SetTimestamp e t2) = e) /\
  (isValidISO8601 t1 = true -> isValidISO8601 t2 = false ->
   Timestamp (fst (SetTimestamp (fst (SetTimestamp e t1)) t2)) = t1).
Proof.
  split; [| split].
  - cbv zeta. unfold SetTimestamp.
    destruct (isValidISO8601 t1); repeat split.
  - intros H. unfold SetTimestamp. rewrite H. reflexivity.
  - intros H1 H2. unfold SetTimestamp. rewrite H1. cbn [fst]. rewrite H2.
    reflexivity.
Qed.

Lemma SetTimestamp_frame_witness :
  Timestamp
    (fst (SetTimestamp
            (fst (SetTimestamp (fresh_embed "t" "" "" 0) "2024-01-15T10:30:00Z"))
            "not-a-date")) = "2024-01-15T10:30:00Z".
Proof.
  apply (proj2 (proj2 (SetTimestamp_frame (fresh_embed "t" "" "" 0)
                         "2024-01-15T10:30:00Z" "not-a-date")));
    vm_compute; reflexivity.
Defined.

(** X5.  [SendWebhook] consults the transport for one request only: the POST
    to the given URL with content type [application/json] and the encoded
    payload as body.  Two transports that answer this request alike give
    the same result, whatever they answer elsewhere. *)
Theorem SendWebhook_single_request
  (post post' : string -> string -> json.JSON -> post_result)
  (webhookUrl : string) (webhookPayload : Webhook) :
  post webhookUrl "application/json"
       (json.encode (json.of_Webhook webhookPayload)) =
  post' webhookUrl "application/json"
        (json.encode (json.of_Webhook webhookPayload)) ->
  SendWebhook post webhookUrl webhookPayload =
  SendWebhook post' webhookUrl webhookPayload.
Proof.
  intros H. unfold SendWebhook, json.Marshal. rewrite H. reflexivity.
Qed.

Lemma SendWebhook_single_request_witness :
  SendWebhook (fun url _ _ => if String.eqb url "u" then Response 204
                              else PostError "unreachable")
              "u" (mkWebhook "Hello" "" "" []) =
  SendWebhook (fun _ contentType _ =>
                 if String.eqb contentType "application/json"
                 then Response 204 else Response 415)
              "u" (mkWebhook "Hello" "" "" []).
Proof.
  apply (SendWebhook_single_request
           (fun url _ _ => if String.eqb url "u" then Response 204
                           else PostError "unreachable")
           (fun _ contentType _ =>
              if String.eqb contentType "application/json"
              then Response 204 else Response 415)
           "u" (mkWebhook "Hello" "" "" [])).
  reflexivity.
Defined.

(** * Further properties of the color conversion *)

(** What [hexToColorInt_parse] returns on a six-byte payload, by the three
    kinds of payload. *)
Lemma hexToColorInt_parse_kinds (sz : IntSize) (p : string) :
  len p = 6 ->
  (all_hex p = true /\ hexToColorInt_parse sz p = (base16 p 0, None) /\
   0 <= base16 p 0 <= 16777215) \/
  (exists c d, p = String c d /\ is_sign c = true /\ all_hex d = true /\
     len d = 5 /\ all_hex p = false /\
     hexToColorInt_parse sz p =
       (if Ascii.eqb c "-" then - base16 d 0 else base16 d 0, None) /\
     0 <= base16 d 0 <= 1048575) \/
  (all_hex p = false /\ signed_hex p = false /\
   hexToColorInt_parse sz p = (0, Some (errHexParse p))).
Proof.
  intros Hlen. destruct (all_hex p) eqn:Hhex.
  - left. split; [reflexivity |]. exact (hexToColorInt_parse_hex sz p Hhex Hlen).
  - destruct (signed_hex p) eqn:Hsigned.
    + right; left. destruct p as [| c d]; [discriminate Hsigned |].
      cbn [signed_hex] in Hsigned. apply andb_prop in Hsigned as [Hc Hd].
      assert (Hlen5 : len d = 5) by (rewrite len_cons in Hlen; lia).
      destruct (hexToColorInt_parse_signed sz c d Hc Hd Hlen5) as [E Hval].
      exists c, d. repeat (split; [solve [reflexivity | assumption] |]).
      exact Hval.
    + right; right. split; [reflexivity |]. split; [reflexivity |].
      exact (hexToColorInt_parse_syntax sz p Hhex Hsigned Hlen).
Qed.

(** The payload [hexToColorInt] parses, or the format error. *)
Lemma hexToColorInt_payload (sz : IntSize) (s : string) :
  (len s = 6 /\ hexToColorInt sz s = hexToColorInt_parse sz s) \/
  (exists p, s = String "#" p /\ len p = 6 /\
     hexToColorInt sz s = hexToColorInt_parse sz p) \/
  (len s <> 6 /\ (forall p, s = String "#" p -> len p <> 6) /\
   hexToColorInt sz s = (0, Some errHexFormat)).
Proof.
  destruct (Z.eq_dec (len s) 6) as [H6 | H6].
  - left. split; [exact H6 | exact (hexToColorInt_len6 sz s H6)].
  - destruct (Z.eq_dec (len (strip_hash s)) 6) as [H6' | H6'].
    + right; left. destruct s as [| c s]; [discriminate H6' |].
      cbn [strip_hash] in H6'.
      destruct (Ascii.eqb c "#") eqn:Hc; [| contradiction].
      apply Ascii.eqb_eq in Hc. subst c. exists s.
      split; [reflexivity |]. split; [exact H6' |].
      exact (hexToColorInt_hash sz s H6').
    + right; right. split; [exact H6 |]. split.
      * intros p -> Hp. apply H6'. exact Hp.
      * exact (hexToColorInt_format sz s H6 H6').
Qed.

(** X6.  The hex strings [hexToColorInt] accepts are exactly: six bytes that
    are six hex digits or a sign and five hex digits, and ['#'] followed by
    six such bytes. *)
Theorem hexToColorInt_accepts (sz : IntSize) (s : string) :
  snd (hexToColorInt sz s) = None <->
  (len s = 6 /\ all_hex s || signed_hex s = true) \/
  (exists p, s = String "#" p /\ len p = 6 /\
     all_hex p || signed_hex p = true).
Proof.
  assert (K : forall p, len p = 6 ->
            (snd (hexToColorInt_parse sz p) = None <->
             all_hex p || signed_hex p = true)).
  { intros p Hp.
    destruct (hexToColorInt_parse_kinds sz p Hp)
      as [(Hh & E & _) | [(c & d & -> & Hc & Hd & _ & _ & E & _) | (Hh & Hs & E)]];
      rewrite E; cbn [snd].
    - rewrite Hh. split; reflexivity.
    - cbn [signed_hex]. rewrite Hc, Hd, orb_true_r. split; reflexivity.
    - rewrite Hh, Hs. split; discriminate. }
  destruct (hexToColorInt_payload sz s)
    as [(H6 & E) | [(p & -> & Hp & E) | (H6 & Hhash & E)]]; rewrite E.
  - rewrite (K s H6). split.
    + intros H. left. split; assumption.
    + intros [[_ H] | (p & -> & Hp & _)]; [exact H |].
      rewrite len_cons in H6. lia.
  - rewrite (K p Hp). split.
    + intros H. right. exists p. repeat split; assumption.
    + intros [[H6 _] | (q & [= <-] & _ & H)]; [| exact H].
      rewrite len_cons in H6. lia.
  - cbn [snd]. split; [discriminate |].
    intros [[H _] | (p & -> & Hp & _)]; [contradiction |].
    exfalso. exact (Hhash p eq_refl Hp).
Qed.

(** X7.  A sign and five hex digits, alone or after ['#'], are read as a
    signed number: with ['+'] the color is the value of the five digits,
    with ['-'] it is the negated value, between -1048575 and 0. *)
Theorem hexToColorInt_signed (sz : IntSize) (c : ascii) (d : string) :
  is_sign c = true -> all_hex d = true -> len d = 5 ->
  let v := if Ascii.eqb c "-" then - base16 d 0 else base16 d 0 in
  hexToColorInt sz (String c d) = (v, None) /\
  hexToColorInt sz (String "#" (String c d)) = (v, None) /\
  0 <= base16 d 0 <= 1048575.
Proof.
  intros Hc Hd Hlen v.
  assert (H6 : len (String c d) = 6) by (rewrite len_cons; lia).
  rewrite hexToColorInt_len6, hexToColorInt_hash by exact H6.
  destruct (hexToColorInt_parse_signed sz c d Hc Hd Hlen) as [E Hval].
  split; [exact E |]. split; [exact E | exact Hval].
Qed.

Lemma hexToColorInt_signed_witness :
  hexToColorInt Int32 "-fffff" = (-1048575, None) /\
  hexToColorInt Int32 "#-fffff" = (-1048575, None).
Proof.
  destruct (hexToColorInt_signed Int32 "-" "fffff" eq_refl eq_refl eq_refl)
    as (E1 & E2 & _).
  split; [exact E1 | exact E2].
Defined.

(** X8.  When [hexToColorInt] fails, the value it returns is 0 and the error
    is the format error or the parse error on a syntax error of the six-byte
    payload; [strconv.ParseInt] never reports a range error here. *)
Theorem hexToColorInt_errors (sz : IntSize) (s : string) (v : Z) (err : error) :
  hexToColorInt sz s = (v, Some err) ->
  v = 0 /\
  (err = errHexFormat \/
   (len s = 6 /\ err = errHexParse s) \/
   (exists p, s = String "#" p /\ len p = 6 /\ err = errHexParse p)).
Proof.
  assert (K : forall p, len p = 6 ->
            hexToColorInt_parse sz p = (v, Some err) ->
            v = 0 /\ err = errHexParse p).
  { intros p Hp H.
    destruct (hexToColorInt_parse_kinds sz p Hp)
      as [(_ & E & _) | [(c & d & _ & _ & _ & _ & _ & E & _) | (_ & _ & E)]];
      rewrite E in H; try discriminate H.
    injection H as <- <-. split; reflexivity. }
  intros H.
  destruct (hexToColorInt_payload sz s)
    as [(H6 & E) | [(p & -> & Hp & E) | (_ & _ & E)]]; rewrite E in H.
  - destruct (K s H6 H) as [-> ->]. split; [reflexivity |].
    right; left. split; [exact H6 | reflexivity].
  - destruct (K p Hp H) as [-> ->]. split; [reflexivity |].
    right; right. exists p. repeat split. exact Hp.
  - injection H as <- <-. split; [reflexivity | left; reflexivity].
Qed.

Lemma hexToColorInt_errors_witness :
  0 = 0 /\
  (errHexParse "zzzzzz" = errHexFormat \/
   (len "zzzzzz" = 6 /\ errHexParse "zzzzzz" = errHexParse "zzzzzz") \/
   (exists p, "zzzzzz" = String "#" p /\ len p = 6 /\
      errHexParse "zzzzzz" = errHexParse p)).
Proof.
  apply (hexToColorInt_errors Int64 "zzzzzz" 0 (errHexParse "zzzzzz")).
  vm_compute. reflexivity.
Defined.

Lemma hexToColorInt_size (sz sz' : IntSize) (s : string) :
  hexToColorInt sz s = hexToColorInt sz' s.
Proof.
  assert (K : forall p, len p = 6 ->
            hexToColorInt_parse sz p = hexToColorInt_parse sz' p).
  { intros p Hp.
    destruct (hexToColorInt_parse_kinds sz p Hp)
      as [(Hh & E & _) | [(c & d & -> & Hc & Hd & H5 & _ & E & _) | (Hh & Hs & E)]];
      rewrite E; symmetry.
    - exact (proj1 (hexToColorInt_parse_hex sz' p Hh Hp)).
    - exact (proj1 (hexToColorInt_parse_signed sz' c d Hc Hd H5)).
    - exact (hexToColorInt_parse_syntax sz' p Hh Hs Hp). }
  destruct (hexToColorInt_payload sz s)
    as [(H6 & E) | [(p & -> & Hp & E) | (H6 & Hhash & E)]]; rewrite E.
  - rewrite hexToColorInt_len6 by exact H6. exact (K s H6).
  - rewrite hexToColorInt_hash by exact Hp. exact (K p Hp).
  - symmetry. apply hexToColorInt_format; [exact H6 |].
    destruct s as [| c s]; [exact H6 |]. cbn [strip_hash].
    destruct (Ascii.eqb c "#") eqn:Hc; [| exact H6].
    apply Ascii.eqb_eq in Hc. subst c. exact (Hhash s eq_refl).
Qed.

(** X9.  [CreateEmbed] returns the same embed and the same error whether
    [int] has 32 or 64 bits, for every title, description, URL and color:
    no accepted value is near the limits of [int], and a rejected RGB
    triple's packed value is dropped. *)
Theorem CreateEmbed_size (sz sz' : IntSize) (title description url : string)
  (color : colorEmbedTypes) :
  CreateEmbed sz title description url color =
  CreateEmbed sz' title description url color.
Proof.
  destruct color as [s | v | rgb].
  - rewrite !CreateEmbed_string, (hexToColorInt_size sz sz' s). reflexivity.
  - reflexivity.
  - rewrite !CreateEmbed_rgb. destruct (channels_ok rgb) eqn:Hrgb.
    + rewrite (proj1 (rgbToInt_ok sz rgb Hrgb)),
        (proj1 (rgbToInt_ok sz' rgb Hrgb)). reflexivity.
    + rewrite (rgbToInt_err sz rgb Hrgb), (rgbToInt_err sz' rgb Hrgb).
      reflexivity.
Qed.

Lemma land_shiftl_low (a b k : Z) :
  0 <= k -> 0 <= b < 2 ^ k -> Z.land (Z.shiftl a k) b = 0.
Proof.
  intros Hk Hb. apply Z.bits_inj'. intros n Hn.
  rewrite Z.land_spec, Z.bits_0.
  destruct (Z.lt_ge_cases n k) as [Hlt | Hge].
  - rewrite Z.shiftl_spec_low by lia. reflexivity.
  - rewrite <- (Z.mod_small b (2 ^ k)) by lia.
    rewrite Z.mod_pow2_bits_high by lia. apply andb_false_r.
Qed.

Lemma lor_shiftl_add (a b k : Z) :
  0 <= k -> 0 <= b < 2 ^ k -> Z.lor (Z.shiftl a k) b = a * 2 ^ k + b.
Proof.
  intros Hk Hb.
  pose proof (Z.add_lor_land (Z.shiftl a k) b) as H.
  rewrite (land_shiftl_low a b k Hk Hb), Z.shiftl_mul_pow2 in H by lia.
  rewrite Z.shiftl_mul_pow2 by lia. lia.
Qed.

(** The packed color of channels in range, as a sum. *)
Lemma pack_sum (r g b : Z) :
  0 <= r <= 255 -> 0 <= g <= 255 -> 0 <= b <= 255 ->
  Z.lor (Z.lor (Z.shiftl r 16) (Z.shiftl g 8)) b = r * 65536 + g * 256 + b.
Proof.
  intros Hr Hg Hb.
  assert (E : Z.lor (Z.shiftl r 16) (Z.shiftl g 8) = Z.shiftl (r * 256 + g) 8).
  { rewrite (Z.shiftl_mul_pow2 g), (Z.shiftl_mul_pow2 (r * 256 + g)) by lia.
    rewrite lor_shiftl_add by (change (2 ^ 8) with 256; change (2 ^ 16) with 65536; lia).
    change (2 ^ 8) with 256; change (2 ^ 16) with 65536. lia. }
  rewrite E, lor_shiftl_add by (change (2 ^ 8) with 256; lia).
  change (2 ^ 8) with 256. lia.
Qed.

Lemma CreateEmbed_rgb_ok (sz : IntSize) (title description url : string)
  (rgb : RGB) :
  channels_ok rgb = true ->
  CreateEmbed sz title description url (ColorRGB rgb) =
  (fresh_embed title description url
     (R rgb * 65536 + G rgb * 256 + B rgb), None).
Proof.
  intros Hok. rewrite CreateEmbed_rgb, (proj1 (rgbToInt_ok sz rgb Hok)).
  apply channels_ok_spec in Hok as (Hr & Hg & Hb).
  rewrite pack_sum by assumption. reflexivity.
Qed.

(** X10.  The color stored for an RGB triple in range gives the channels
    back: shifting it right by 16, 8 and 0 bits and masking with 255 returns
    R, G and B.  So two triples that [CreateEmbed] accepts with the same
    color are the same triple. *)
Theorem CreateEmbed_rgb_unpack (sz : IntSize) (title description url : string)
  (rgb : RGB) (e : Embed) :
  CreateEmbed sz title description url (ColorRGB rgb) = (e, None) ->
  Z.land (Z.shiftr (Color e) 16) 255 = R rgb /\
  Z.land (Z.shiftr (Color e) 8) 255 = G rgb /\
  Z.land (Color e) 255 = B rgb.
Proof.
  intros H. destruct (channels_ok rgb) eqn:Hok.
  - rewrite (CreateEmbed_rgb_ok sz title description url rgb Hok) in H.
    injection H as <-. cbn [fresh_embed Color].
    apply channels_ok_spec in Hok as (Hr & Hg & Hb).
    change 255 with (Z.ones 8).
    rewrite !Z.land_ones, !Z.shiftr_div_pow2 by lia.
    change (2 ^ 16) with 65536. change (2 ^ 8) with 256.
    repeat split.
    + replace ((R rgb * 65536 + G rgb * 256 + B rgb) / 65536) with (R rgb)
        by (apply Z.div_unique with (r := G rgb * 256 + B rgb); lia).
      apply Z.mod_small. lia.
    + replace ((R rgb * 65536 + G rgb * 256 + B rgb) / 256)
        with (R rgb * 256 + G rgb)
        by (apply Z.div_unique with (r := B rgb); lia).
      symmetry. apply Z.mod_unique with (q := R rgb); lia.
    + symmetry.
      apply Z.mod_unique with (q := R rgb * 256 + G rgb); lia.
  - rewrite CreateEmbed_rgb, (rgbToInt_err sz rgb Hok) in H. discriminate H.
Qed.

Lemma CreateEmbed_rgb_unpack_witness :
  Z.land (Z.shiftr 7331405 16) 255 = 111 /\
  Z.land (Z.shiftr 7331405 8) 255 = 222 /\
  Z.land 7331405 255 = 77.
Proof.
  apply (CreateEmbed_rgb_unpack Int64 "t" "d" "u" (mkRGB 111 222 77)
           (fresh_embed "t" "d" "u" 7331405)).
  vm_compute. reflexivity.
Defined.

(** X11.  The integer and the RGB form of a color agree: an RGB triple in
    range gives the embed that the integer [R*65536 + G*256 + B] gives, and
    an integer [v] in [0, 16777215] gives the embed that the triple
    [(v / 65536, v / 256 mod 256, v mod 256)] gives. *)
Theorem CreateEmbed_int_rgb (sz : IntSize) (title description url : string) :
  (forall r g b, 0 <= r <= 255 -> 0 <= g <= 255 -> 0 <= b <= 255 ->
     CreateEmbed sz title description url (ColorRGB (mkRGB r g b)) =
     CreateEmbed sz title description url
                 (ColorInt (r * 65536 + g * 256 + b))) /\
  (forall v, 0 <= v <= 16777215 ->
     CreateEmbed sz title description url (ColorInt v) =
     CreateEmbed sz title description url
       (ColorRGB (mkRGB (v / 65536) (v / 256 mod 256) (v mod 256)))).
Proof.
  assert (Hint : forall v, 0 <= v <= 16777215 ->
            CreateEmbed sz title description url (ColorInt v) =
            (fresh_embed title description url v, None)).
  { intros v Hv. unfold CreateEmbed, maxDecimalRGBValue, minDecimalRGBValue.
    destruct (Z.gtb_spec v 16777215); [lia |].
    destruct (Z.ltb_spec v 0); [lia |]. reflexivity. }
  split.
  - intros r g b Hr Hg Hb.
    rewrite CreateEmbed_rgb_ok by (apply channels_ok_spec; cbn; lia).
    rewrite Hint by lia. reflexivity.
  - intros v Hv.
    pose proof (Z.div_mod v 256 ltac:(lia)) as D1.
    pose proof (Z.div_mod (v / 256) 256 ltac:(lia)) as D2.
    pose proof (Z.mod_pos_bound v 256 ltac:(lia)) as B1.
    pose proof (Z.mod_pos_bound (v / 256) 256 ltac:(lia)) as B2.
    assert (E : v / 65536 = v / 256 / 256)
      by (rewrite Z.div_div by lia; reflexivity).
    assert (B3 : 0 <= v / 65536 <= 255).
    { split; [apply Z.div_pos; lia |].
      apply Z.lt_succ_r. apply Z.div_lt_upper_bound; lia. }
    rewrite CreateEmbed_rgb_ok by (apply channels_ok_spec; cbn; lia).
    rewrite Hint by lia. cbn [R G B]. f_equal. f_equal. lia.
Qed.

Lemma CreateEmbed_int_rgb_witness :
  CreateEmbed Int64 "t" "d" "u" (ColorRGB (mkRGB 111 222 77)) =
  CreateEmbed Int64 "t" "d" "u" (ColorInt (111 * 65536 + 222 * 256 + 77)).
Proof.
  apply (proj1 (CreateEmbed_int_rgb Int64 "t" "d" "u")); lia.
Defined.

(** X12.  A hex string RRGGBB gives the color of the RGB triple whose
    channels are its three pairs of digits: with six hex digits,
    [hexToColorInt] and [rgbToInt] return the same value and no error. *)
Theorem hexToColorInt_rgbToInt (sz : IntSize) (r1 r0 g1 g0 b1 b0 : ascii) :
  all_hex (String r1 (String r0 (String g1 (String g0 (String b1
          (String b0 "")))))) = true ->
  hexToColorInt sz (String r1 (String r0 (String g1 (String g0 (String b1
                   (String b0 "")))))) =
  rgbToInt sz (mkRGB (hex_digit_value r1 * 16 + hex_digit_value r0)
                     (hex_digit_value g1 * 16 + hex_digit_value g0)
                     (hex_digit_value b1 * 16 + hex_digit_value b0)) /\
  snd (hexToColorInt sz (String r1 (String r0 (String g1 (String g0 (String b1
                        (String b0 ""))))))) = None.
Proof.
  intros Hhex.
  set (d := String r1 (String r0 (String g1 (String g0 (String b1
            (String b0 "")))))) in *.
  assert (Hlen : len d = 6) by reflexivity.
  rewrite (hexToColorInt_len6 sz d Hlen).
  destruct (hexToColorInt_parse_hex sz d Hhex Hlen) as [E _]. rewrite E.
  split; [| reflexivity].
  subst d. cbn [all_hex] in Hhex.
  repeat (apply andb_prop in Hhex as [?H Hhex]).
  repeat match goal with
         | H : is_hex_digit ?c = true |- _ =>
             destruct (digit_of_hex c H) as [_ ?B]; clear H
         end.
  assert (Hok : channels_ok
                  (mkRGB (hex_digit_value r1 * 16 + hex_digit_value r0)
                         (hex_digit_value g1 * 16 + hex_digit_value g0)
                         (hex_digit_value b1 * 16 + hex_digit_value b0)) = true)
    by (apply channels_ok_spec; cbn [R G B]; lia).
  rewrite (proj1 (rgbToInt_ok sz _ Hok)). cbn [R G B base16].
  rewrite pack_sum by lia. f_equal. lia.
Qed.

Lemma hexToColorInt_rgbToInt_witness :
  hexToColorInt Int64 "6fde4d" = rgbToInt Int64 (mkRGB 111 222 77).
Proof.
  apply (proj1 (hexToColorInt_rgbToInt Int64 "6" "f" "d" "e" "4" "d" eq_refl)).
Defined.

Lemma CreateEmbed_color_range_witness :
  in_color_range (Color (fresh_embed "t" "d" "u" 16734003)).
Proof.
  apply (CreateEmbed_color_range Int64 "t" "d" "u" (ColorString "#ff5733")).
  - split; reflexivity.
  - vm_compute. reflexivity.
Defined.

(** * Further properties of the wire encoding *)

Lemma slice_empty {A} (f : A -> json.gvalue) (l : list A) :
  json.isEmptyValue (json.GSlice (map f l)) =
  match l with [] => true | _ :: _ => false end.
Proof. destruct l; reflexivity. Qed.

Lemma string_empty (s : string) :
  json.isEmptyValue (json.GString s) =
  match s with EmptyString => true | String _ _ => false end.
Proof. destruct s; reflexivity. Qed.

(** X15.  The encoding keeps the order of the sequences: the ["embeds"]
    member of a webhook is the array of its embeds' encodings in the order
    of [Embeds], and the ["fields"] member of an embed the array of its
    fields' encodings in the order of [Fields]; an empty sequence has no
    member at all. *)
Theorem encode_sequences (w : Webhook) (e : Embed) :
  json.member "embeds" (json.encode (json.of_Webhook w)) =
    match Embeds w with
    | [] => None
    | es => Some (json.JArray
                    (map (fun e => json.encode (json.of_Embed e)) es))
    end /\
  json.member "fields" (json.encode (json.of_Embed e)) =
    match Fields e with
    | [] => None
    | fs => Some (json.JArray
                    (map (fun f => json.encode (json.of_Field f)) fs))
    end.
Proof.
  split.
  - destruct w as [c u a es]. unfold json.of_Webhook, json.member.
    cbn [Content Username AvatarURL Embeds json.encode flat_map].
    rewrite !string_empty, !slice_empty. cbn [andb].
    rewrite map_map.
    destruct c, u, a, es;
      cbn [app find fst snd String.eqb Ascii.eqb Bool.eqb]; reflexivity.
  - destruct e as [t d u c ts fo im th au fs]. unfold json.of_Embed, json.member.
    cbn [Title Description URL Color Timestamp Footer_ Image_ Thumbnail_
         Author_ Fields json.encode flat_map].
    change (json.isEmptyValue (json.of_Footer fo)) with false.
    change (json.isEmptyValue (json.of_Image im)) with false.
    change (json.isEmptyValue (json.of_Thumbnail th)) with false.
    change (json.isEmptyValue (json.of_Author au)) with false.
    rewrite !string_empty, !slice_empty. cbn [json.isEmptyValue andb].
    rewrite map_map.
    destruct t, d, u, ts; destruct (Z.eqb_spec c 0) as [-> | Hc];
      destruct fs;
      cbn [app find fst snd String.eqb Ascii.eqb Bool.eqb]; reflexivity.
Qed.

(** X16.  A field is always sent with its name and its value, empty or not;
    ["inline"] is sent only when it is true. *)
Theorem encode_Field_members (f : Field) :
  json.encode (json.of_Field f) =
  json.JObject
    ([("name", json.JString (Field_Name f));
      ("value", json.JString (Field_Value f))] ++
     (if Field_Inline f then [("inline", json.JBool true)] else [])).
Proof. destruct f as [n v []]; reflexivity. Qed.

Lemma Webhook_optional_members (w : Webhook) :
  let jw := json.encode (json.of_Webhook w) in
  (In "content" (json.keys jw) <-> Content w <> "") /\
  (In "username" (json.keys jw) <-> Username w <> "") /\
  (In "avatar_url" (json.keys jw) <-> AvatarURL w <> "") /\
  (In "embeds" (json.keys jw) <-> Embeds w <> []).
Proof.
  cbv zeta. destruct w as [c u a es].
  unfold json.of_Webhook, json.keys.
  cbn [Content Username AvatarURL Embeds json.encode flat_map].
  rewrite !string_empty, !slice_empty. cbn [andb].
  destruct c, u, a, es; cbn [app map fst];
    repeat match goal with
           | |- _ /\ _ => split
           | |- _ <-> _ => split; intros H
           | |- _ <> _ => first [discriminate | exact Hc]
           | H : In _ _ |- _ =>
               cbn [In] in H;
               repeat (destruct H as [H | H]; try discriminate H);
               try contradiction
           | H : ?x <> ?x |- _ => contradiction H; reflexivity
           | H : ?a <> ?b, E : ?a = ?b |- _ => contradiction
           | |- In _ _ => cbn [In]; tauto
           end.
Qed.

Lemma Embed_optional_members (e : Embed) :
  let je := json.encode (json.of_Embed e) in
  (In "title" (json.keys je) <-> Title e <> "") /\
  (In "description" (json.keys je) <-> Description e <> "") /\
  (In "url" (json.keys je) <-> URL e <> "") /\
  (In "color" (json.keys je) <-> Color e <> 0) /\
  (In "timestamp" (json.keys je) <-> Timestamp e <> "") /\
  (In "fields" (json.keys je) <-> Fields e <> []).
Proof.
  cbv zeta. destruct e as [t d eu ec ts fo im th au fs].
  unfold json.of_Embed, json.keys.
  cbn [Title Description URL Color Timestamp Footer_ Image_ Thumbnail_
       Author_ Fields json.encode flat_map].
  change (json.isEmptyValue (json.of_Footer fo)) with false.
  change (json.isEmptyValue (json.of_Image im)) with false.
  change (json.isEmptyValue (json.of_Thumbnail th)) with false.
  change (json.isEmptyValue (json.of_Author au)) with false.
  rewrite !string_empty, !slice_empty. cbn [json.isEmptyValue andb].
  destruct t, d, eu, ts, fs; destruct (Z.eqb_spec ec 0) as [Hc | Hc];
    cbn [app map fst];
    repeat match goal with
           | |- _ /\ _ => split
           | |- _ <-> _ => split; intros H
           | |- _ <> _ => first [discriminate | exact Hc]
           | H : In _ _ |- _ =>
               cbn [In] in H;
               repeat (destruct H as [H | H]; try discriminate H);
               try contradiction
           | H : ?x <> ?x |- _ => contradiction H; reflexivity
           | H : ?a <> ?b, E : ?a = ?b |- _ => contradiction
           | |- In _ _ => cbn [In]; tauto
           end.
Qed.

(** X17.  Of the optional text, number and sequence members of a webhook and
    of an embed, exactly those that are not zero are sent: a key is among
    the members if and only if its field is not the empty string, the number
    0 or the empty sequence. *)
Theorem encode_optional_members (w : Webhook) (e : Embed) :
  let jw := json.encode (json.of_Webhook w) in
  let je := json.encode (json.of_Embed e) in
  (In "content" (json.keys jw) <-> Content w <> "") /\
  (In "username" (json.keys jw) <-> Username w <> "") /\
  (In "avatar_url" (json.keys jw) <-> AvatarURL w <> "") /\
  (In "embeds" (json.keys jw) <-> Embeds w <> []) /\
  (In "title" (json.keys je) <-> Title e <> "") /\
  (In "description" (json.keys je) <-> Description e <> "") /\
  (In "url" (json.keys je) <-> URL e <> "") /\
  (In "color" (json.keys je) <-> Color e <> 0) /\
  (In "timestamp" (json.keys je) <-> Timestamp e <> "") /\
  (In "fields" (json.keys je) <-> Fields e <> []).
Proof.
  cbv zeta.
  destruct (Webhook_optional_members w) as (H1 & H2 & H3 & H4).
  destruct (Embed_optional_members e) as (H5 & H6 & H7 & H8 & H9 & H10).
  repeat (split; [assumption |]). assumption.
Qed.

Example format_utc :
  time_Format.Format_RFC3339 (time_Format.mkTime 2024 1 15 10 30 0 0) =
  "2024-01-15T10:30:00Z".
Proof. vm_compute. reflexivity. Qed.

Example format_offset :
  time_Format.Format_RFC3339 (time_Format.mkTime 987 12 31 23 59 59 (-19800)) =
  "0987-12-31T23:59:59-05:30".
Proof. vm_compute. reflexivity. Qed.

Example appendInt_wide : time_Format.appendInt (-12345) 4 = "-12345".
Proof. vm_compute. reflexivity. Qed.

Example appendInt_pad : time_Format.appendInt 7 3 = "007".
Proof. vm_compute. reflexivity. Qed.

(** * Timestamps made by [Time.Format] *)

Lemma digit_char_spec (d : Z) :
  0 <= d <= 9 ->
  time.is_digit (time_Format.digit_char d) = true /\
  byte (time_Format.digit_char d) - 48 = d /\
  Ascii.eqb (time_Format.digit_char d) "-" = false /\
  Ascii.eqb (time_Format.digit_char d) "+" = false.
Proof.
  intros H.
  assert (E : d = 0 \/ d = 1 \/ d = 2 \/ d = 3 \/ d = 4 \/ d = 5 \/ d = 6 \/
              d = 7 \/ d = 8 \/ d = 9) by lia.
  repeat (destruct E as [-> | E]; [repeat split |]). subst d. repeat split.
Qed.

Lemma getnum_two (fixed : bool) (a b : Z) (rest : string) :
  0 <= a <= 9 -> 0 <= b <= 9 ->
  time.getnum fixed
    (String (time_Format.digit_char a) (String (time_Format.digit_char b) rest))
  = Some (a * 10 + b, rest).
Proof.
  intros Ha Hb.
  destruct (digit_char_spec a Ha) as (Da & Va & _).
  destruct (digit_char_spec b Hb) as (Db & Vb & _).
  unfold time.getnum, time.isDigit. cbn [String.get].
  rewrite Da, Db. cbn [negb]. rewrite Va, Vb. reflexivity.
Qed.

Lemma appendInt_two (x : Z) :
  0 <= x < 100 ->
  time_Format.appendInt x 2 =
  String (time_Format.digit_char (x / 10))
         (String (time_Format.digit_char (x mod 10)) "") /\
  0 <= x / 10 <= 9 /\ 0 <= x mod 10 <= 9 /\ x / 10 * 10 + x mod 10 = x.
Proof.
  intros Hx. unfold time_Format.appendInt.
  rewrite Z.abs_eq by lia.
  destruct (Z.ltb_spec x 0); [lia |]. destruct (Z.ltb_spec x 100); [| lia].
  cbn [Nat.eqb andb append].
  split; [reflexivity |]. Z.div_mod_to_equations. lia.
Qed.

Lemma appendInt_four (x : Z) :
  0 <= x < 10000 ->
  time_Format.appendInt x 4 =
  String (time_Format.digit_char (x / 1000))
    (String (time_Format.digit_char (x / 100 mod 10))
       (String (time_Format.digit_char (x / 10 mod 10))
          (String (time_Format.digit_char (x mod 10)) ""))) /\
  0 <= x / 1000 <= 9 /\ 0 <= x / 100 mod 10 <= 9 /\
  0 <= x / 10 mod 10 <= 9 /\ 0 <= x mod 10 <= 9 /\
  ((x / 1000 * 10 + x / 100 mod 10) * 10 + x / 10 mod 10) * 10 + x mod 10 = x.
Proof.
  intros Hx. unfold time_Format.appendInt.
  rewrite Z.abs_eq by lia.
  destruct (Z.ltb_spec x 0); [lia |]. destruct (Z.ltb_spec x 100);
    destruct (Z.ltb_spec x 10000); try lia;
    cbn [Nat.eqb andb append]; (split; [reflexivity |]);
    Z.div_mod_to_equations; lia.
Qed.

Lemma substring_all (s : string) : substring 0 (String.length s) s = s.
Proof. induction s as [| c s IH]; [reflexivity |]. cbn. rewrite IH. reflexivity. Qed.

Lemma substring_none (s : string) : substring 0 0 s = "".
Proof. destruct s; reflexivity. Qed.

Lemma longYear_four (a b c d : Z) (rest : string) :
  0 <= a <= 9 -> 0 <= b <= 9 -> 0 <= c <= 9 -> 0 <= d <= 9 ->
  time.longYear
    (String (time_Format.digit_char a) (String (time_Format.digit_char b)
       (String (time_Format.digit_char c) (String (time_Format.digit_char d)
          rest))))
  = Some (((a * 10 + b) * 10 + c) * 10 + d, rest).
Proof.
  intros Ha Hb Hc Hd.
  destruct (digit_char_spec a Ha) as (Da & Va & Ma & Pa).
  destruct (digit_char_spec b Hb) as (Db & Vb & _).
  destruct (digit_char_spec c Hc) as (Dc & Vc & _).
  destruct (digit_char_spec d Hd) as (Dd & Vd & _).
  unfold time.longYear, time.isDigit. cbn [String.get].
  rewrite Da. cbn [negb].
  rewrite !len_cons.
  destruct (Z.ltb_spec (len rest + 1 + 1 + 1 + 1) 4) as [Hlt | _];
    [pose proof (len_nonneg rest); lia |].
  cbn [orb String.length Nat.sub substring].
  rewrite Nat.sub_0_r, substring_all, substring_none.
  unfold time.atoi. rewrite Ma, Pa.
  cbn [time.leadingInt]. rewrite Da, Db, Dc, Dd.
  replace (0 * 10 + (byte (time_Format.digit_char a) - 48)) with a by lia.
  rewrite Vb, Vc, Vd. reflexivity.
Qed.

(** The zone that [Format_RFC3339] writes is read back by the zone chunk,
    and is not taken for a fraction of a second. *)
Lemma zone_numeric (sign : ascii) (h m : Z) :
  is_sign sign = true -> 0 <= h <= 24 -> 0 <= m <= 59 ->
  let z := String sign
             (String (time_Format.digit_char (h / 10))
                (String (time_Format.digit_char (h mod 10))
                   (String ":"
                      (String (time_Format.digit_char (m / 10))
                         (String (time_Format.digit_char (m mod 10)) ""))))) in
  time.fractional z = Some (tt, z) /\ time.zone z = Some (tt, "") /\
  strict_fraction_zone z = true.
Proof.
  intros Hs Hh Hm z.
  assert (Dh : 0 <= h / 10 <= 9 /\ 0 <= h mod 10 <= 9 /\
               h / 10 * 10 + h mod 10 = h) by (Z.div_mod_to_equations; lia).
  assert (Dm : 0 <= m / 10 <= 9 /\ 0 <= m mod 10 <= 9 /\
               m / 10 * 10 + m mod 10 = m) by (Z.div_mod_to_equations; lia).
  destruct Dh as (Dh1 & Dh0 & Eh). destruct Dm as (Dm1 & Dm0 & Em).
  assert (Hsign : sign = "+"%char \/ sign = "-"%char).
  { unfold is_sign in Hs. apply orb_prop in Hs as [E | E];
      apply Ascii.eqb_eq in E; [left | right]; exact E. }
  subst z. split; [| split].
  - destruct Hsign as [-> | ->]; reflexivity.
  - unfold time.zone.
    assert (HZ : Ascii.eqb sign "Z" = false)
      by (destruct Hsign as [-> | ->]; reflexivity).
    rewrite HZ. change (len _ <? 6) with false. cbv iota.
    change (Ascii.eqb ":" ":") with true. cbn [negb].
    rewrite !getnum_two by assumption. rewrite Eh, Em.
    destruct (Z.gtb_spec h 24); [lia |]. destruct (Z.gtb_spec m 60); [lia |].
    cbn [orb]. fold (is_sign sign). rewrite Hs. reflexivity.
  - assert (Hdot : Ascii.eqb sign "." = false)
      by (destruct Hsign as [-> | ->]; reflexivity).
    cbn [strict_fraction_zone strict_zone]. rewrite Hdot, Hs.
    rewrite (proj1 (digit_char_spec _ Dh1)), (proj1 (digit_char_spec _ Dh0)),
      (proj1 (digit_char_spec _ Dm1)), (proj1 (digit_char_spec _ Dm0)).
    reflexivity.
Qed.

Lemma Format_zone_parses (offset : Z) :
  -90000 < offset < 90000 ->
  let z := time_Format.Format_zone offset in
  time.fractional z = Some (tt, z) /\ time.zone z = Some (tt, "") /\
  strict_fraction_zone z = true.
Proof.
  intros Hoff z. subst z. unfold time_Format.Format_zone.
  assert (Hq : -1499 <= Z.quot offset 60 <= 1499)
    by (Z.quot_rem_to_equations; lia).
  destruct (Z.eqb_spec offset 0) as [-> | Hne]; [repeat split |].
  cbv zeta.
  set (q := Z.quot offset 60) in *.
  set (zone := if q <? 0 then - q else q).
  assert (Hzone : 0 <= zone <= 1499)
    by (subst zone; destruct (Z.ltb_spec q 0); lia).
  clearbody zone. clear Hq Hne Hoff.
  rewrite Z.quot_div_nonneg, Z.rem_mod_nonneg by lia.
  assert (Hh : 0 <= zone / 60 <= 24 /\ 0 <= zone mod 60 <= 59)
    by (Z.div_mod_to_equations; lia).
  destruct Hh as [Hh Hm].
  rewrite (proj1 (appendInt_two (zone / 60) ltac:(lia))),
    (proj1 (appendInt_two (zone mod 60) ltac:(lia))).
  destruct (q <? 0); cbn [append];
    apply zone_numeric; solve [reflexivity | assumption].
Qed.

Lemma Parse_Format (t : time_Format.Time) :
  time_Format.civil t ->
  time.Parse_RFC3339 (time_Format.Format_RFC3339 t) = Some tt /\
  strict_profile (time_Format.Format_RFC3339 t) = true.
Proof.
  destruct t as [y mo d h mi s off]. unfold time_Format.civil.
  cbn [time_Format.year time_Format.month time_Format.day time_Format.hour
       time_Format.min time_Format.sec time_Format.offset].
  intros (Hy & Hmo & Hd & Hh & Hmi & Hs & Hoff).
  assert (Hd31 : d <= 31).
  { unfold time.daysIn in Hd.
    destruct (mo =? 2); [destruct (time.isLeap y); lia |].
    pose proof (Z.land_ones (mo + Z.shiftr mo 3) 1 ltac:(lia)) as E.
    change (Z.ones 1) with 1 in E. change (2 ^ 1) with 2 in E.
    pose proof (Z.mod_pos_bound (mo + Z.shiftr mo 3) 2 ltac:(lia)).
    lia. }
  unfold time_Format.Format_RFC3339.
  cbn [time_Format.year time_Format.month time_Format.day time_Format.hour
       time_Format.min time_Format.sec time_Format.offset].
  destruct (Format_zone_parses off Hoff) as (Zf & Zz & Zs).
  cbv zeta in Zf, Zz, Zs.
  set (z := time_Format.Format_zone off) in *. clearbody z.
  destruct (appendInt_four y ltac:(lia)) as (-> & Y3 & Y2 & Y1 & Y0 & Ey).
  destruct (appendInt_two mo ltac:(lia)) as (-> & Mo1 & Mo0 & Emo).
  destruct (appendInt_two d ltac:(lia)) as (-> & D1 & D0 & Ed).
  destruct (appendInt_two h ltac:(lia)) as (-> & H1 & H0 & Eh).
  destruct (appendInt_two mi ltac:(lia)) as (-> & Mi1 & Mi0 & Emi).
  destruct (appendInt_two s ltac:(lia)) as (-> & S1 & S0 & Es).
  cbn [append]. split.
  - unfold time.Parse_RFC3339, time.bind, time.ret, time.in_range, time.fail.
    rewrite longYear_four by assumption. rewrite Ey.
    cbn [time.skip Ascii.eqb Bool.eqb].
    rewrite getnum_two by assumption. rewrite Emo.
    destruct (Z.leb_spec mo 0); [lia |]. destruct (Z.ltb_spec 12 mo); [lia |].
    cbn [orb negb time.ret time.skip Ascii.eqb Bool.eqb].
    rewrite getnum_two by assumption. rewrite Ed.
    cbn [time.skip Ascii.eqb Bool.eqb].
    rewrite getnum_two by assumption. rewrite Eh.
    destruct (Z.ltb_spec h 0); [lia |]. destruct (Z.leb_spec 24 h); [lia |].
    cbn [orb negb time.ret time.skip Ascii.eqb Bool.eqb].
    rewrite getnum_two by assumption. rewrite Emi.
    destruct (Z.ltb_spec mi 0); [lia |]. destruct (Z.leb_spec 60 mi); [lia |].
    cbn [orb negb time.ret time.skip Ascii.eqb Bool.eqb].
    rewrite getnum_two by assumption. rewrite Es.
    destruct (Z.ltb_spec s 0); [lia |]. destruct (Z.leb_spec 60 s); [lia |].
    cbn [orb negb time.ret]. rewrite Zf, Zz.
    change (len "" =? 0) with true. cbn [negb].
    destruct (Z.ltb_spec d 1); [lia |].
    destruct (Z.gtb_spec d (time.daysIn mo y)); [lia |]. reflexivity.
  - cbn [strict_profile].
    rewrite (proj1 (digit_char_spec _ Y3)), (proj1 (digit_char_spec _ Y2)),
      (proj1 (digit_char_spec _ Y1)), (proj1 (digit_char_spec _ Y0)),
      (proj1 (digit_char_spec _ Mo1)), (proj1 (digit_char_spec _ Mo0)),
      (proj1 (digit_char_spec _ D1)), (proj1 (digit_char_spec _ D0)),
      (proj1 (digit_char_spec _ H1)), (proj1 (digit_char_spec _ H0)),
      (proj1 (digit_char_spec _ Mi1)), (proj1 (digit_char_spec _ Mi0)),
      (proj1 (digit_char_spec _ S1)), (proj1 (digit_char_spec _ S0)).
    cbn [andb Ascii.eqb Bool.eqb].
    exact Zs.
Qed.

(** X19.  A timestamp written by [Time.Format] with the layout
    [time.RFC3339], as the example program does for the current time, is
    always accepted by [SetTimestamp] and stored as written, for every date
    and clock of a year 0 to 9999 and every zone offset below 25 hours; the
    text has the shape of the strict profile. *)
Theorem SetTimestamp_Format (e : Embed) (t : time_Format.Time) :
  time_Format.civil t ->
  SetTimestamp e (time_Format.Format_RFC3339 t) =
    (set_Timestamp e (time_Format.Format_RFC3339 t), None) /\
  strict_profile (time_Format.Format_RFC3339 t) = true.
Proof.
  intros Ht. destruct (Parse_Format t Ht) as [HP HS].
  split; [| exact HS].
  unfold SetTimestamp, isValidISO8601. rewrite HP. reflexivity.
Qed.

Lemma SetTimestamp_Format_witness :
  SetTimestamp (fresh_embed "t" "" "" 0)
    (time_Format.Format_RFC3339
       (time_Format.mkTime 2024 2 29 23 59 59 (-19800))) =
  (set_Timestamp (fresh_embed "t" "" "" 0) "2024-02-29T23:59:59-05:30", None).
Proof.
  refine (proj1 (SetTimestamp_Format (fresh_embed "t" "" "" 0)
                   (time_Format.mkTime 2024 2 29 23 59 59 (-19800)) _)).
  unfold time_Format.civil. vm_compute.
  repeat split; first [reflexivity | discriminate].
Defined.

(** * What an accepted timestamp looks like *)

Lemma getnum_inv (fixed : bool) (value : string) (n : Z) (r : string) :
  time.getnum fixed value = Some (n, r) ->
  (exists a b, value = String a (String b r) /\
     time.is_digit a = true /\ time.is_digit b = true /\
     n = (byte a - 48) * 10 + (byte b - 48)) \/
  (fixed = false /\ exists a, value = String a r /\
     time.is_digit a = true /\ n = byte a - 48).
Proof.
  unfold time.getnum, time.isDigit.
  destruct value as [| a [| b r']]; cbn [String.get].
  - discriminate.
  - destruct (time.is_digit a) eqn:Da; cbn [negb]; [| discriminate].
    destruct fixed; [discriminate |]. intros [= <- <-].
    right. split; [reflexivity |]. exists a. repeat split. exact Da.
  - destruct (time.is_digit a) eqn:Da; cbn [negb]; [| discriminate].
    destruct (time.is_digit b) eqn:Db; cbn [negb].
    + intros [= <- <-]. left. exists a, b. repeat split; assumption.
    + destruct fixed; [discriminate |]. intros [= <- <-].
      right. split; [reflexivity |]. exists a. repeat split. exact Da.
Qed.

Lemma getnum_fixed_inv (value : string) (n : Z) (r : string) :
  time.getnum true value = Some (n, r) ->
  exists a b, value = String a (String b r) /\
    time.is_digit a = true /\ time.is_digit b = true /\
    n = (byte a - 48) * 10 + (byte b - 48).
Proof.
  intros H. destruct (getnum_inv true value n r H) as [H' | [H' _]];
    [exact H' | discriminate H'].
Qed.

Lemma skip_inv (c : ascii) (value r : string) :
  time.skip (String c "") value = Some (tt, r) -> value = String c r.
Proof.
  cbn [time.skip]. destruct value as [| v value']; [discriminate |].
  destruct (Ascii.eqb_spec v c) as [-> | _]; [| discriminate].
  intros [= <-]. reflexivity.
Qed.

Lemma leadingInt_digits (s : string) :
  forall x q, time.leadingInt s x = (q, "") -> 
  forall c, In c (list_ascii_of_string s) -> time.is_digit c = true.
Proof.
  induction s as [| a s IH]; intros x q H c Hin; [destruct Hin |].
  cbn [time.leadingInt] in H. destruct (time.is_digit a) eqn:Da;
    [| discriminate H].
  cbn [list_ascii_of_string In] in Hin. destruct Hin as [<- | Hin];
    [exact Da | exact (IH _ _ H c Hin)].
Qed.

Lemma longYear_inv (value : string) (y : Z) (r : string) :
  time.longYear value = Some (y, r) ->
  exists c0 c1 c2 c3,
    value = String c0 (String c1 (String c2 (String c3 r))) /\
    time.is_digit c0 = true /\ time.is_digit c1 = true /\
    time.is_digit c2 = true /\ time.is_digit c3 = true.
Proof.
  unfold time.longYear, time.isDigit.
  destruct value as [| c0 [| c1 [| c2 [| c3 rest]]]];
    try (cbn; discriminate);
    try (cbn [String.get]; destruct (time.is_digit c0); cbn; discriminate).
  cbn [String.get]. rewrite !len_cons.
  destruct (Z.ltb_spec (len rest + 1 + 1 + 1 + 1) 4) as [Hlt | _];
    [pose proof (len_nonneg rest); lia |].
  destruct (time.is_digit c0) eqn:D0; cbn [negb orb]; [| discriminate].
  cbn [String.length Nat.sub substring].
  rewrite Nat.sub_0_r, substring_all, substring_none.
  unfold time.atoi.
  assert (Hm : Ascii.eqb c0 "-" = false /\ Ascii.eqb c0 "+" = false).
  { clear -D0. revert D0. each_byte c0; intros H; try discriminate H;
      split; reflexivity. }
  destruct Hm as [-> ->].
  destruct (time.leadingInt (String c0 (String c1 (String c2 (String c3 ""))))
              0) as [q [| ? ?]] eqn:L; [| discriminate].
  intros [= <- <-].
  pose proof (leadingInt_digits _ _ _ L) as Hd.
  exists c0, c1, c2, c3. split; [reflexivity |].
  repeat split; apply Hd; cbn; tauto.
Qed.

Lemma skip_digits_len (s : string) : len (time.skip_digits s) <= len s.
Proof.
  induction s as [| c s IH]; cbn [time.skip_digits]; [lia |].
  destruct (time.is_digit c); [rewrite len_cons; lia | lia].
Qed.

Lemma fractional_len (value r : string) :
  time.fractional value = Some (tt, r) -> len r <= len value.
Proof.
  unfold time.fractional. destruct value as [| c0 [| c1 rest]];
    try (intros [= <-]; lia).
  destruct (time.commaOrPeriod c0 && time.is_digit c1); intros [= <-];
    [| lia].
  rewrite !len_cons. pose proof (skip_digits_len rest). lia.
Qed.

Lemma zone_len (value r : string) :
  time.zone value = Some (tt, r) -> len r + 1 <= len value.
Proof.
  unfold time.zone. destruct value as [| c0 rest0]; [discriminate |].
  destruct (Ascii.eqb c0 "Z"); [intros [= <-]; rewrite len_cons; lia |].
  destruct (len (String c0 rest0) <? 6); [discriminate |].
  destruct rest0 as [| h0 [| h1 [| c [| m0 [| m1 rest]]]]]; try discriminate.
  destruct (negb (Ascii.eqb c ":")); [discriminate |].
  destruct (time.getnum true (String h0 (String h1 ""))) as [[hr ?] |];
    [| discriminate].
  destruct (time.getnum true (String m0 (String m1 ""))) as [[mm ?] |];
    [| discriminate].
  destruct ((hr >? 24) || (mm >? 60)); [discriminate |].
  destruct (Ascii.eqb c0 "+" || Ascii.eqb c0 "-"); [| discriminate].
  intros [= <-]. rewrite !len_cons. lia.
Qed.

Lemma getnum_len (fixed : bool) (value : string) (n : Z) (r : string) :
  time.getnum fixed value = Some (n, r) ->
  len r + 1 <= len value /\ (fixed = true -> len value = len r + 2).
Proof.
  intros H.
  destruct (getnum_inv fixed value n r H)
    as [(a & b & -> & _) | (-> & a & -> & _)]; rewrite !len_cons;
    (split; [lia | intros; try discriminate; lia]).
Qed.

Lemma append_assoc (a b c : string) : (a ++ b) ++ c = a ++ (b ++ c).
Proof. induction a as [| x a IH]; [reflexivity |]. cbn [append]. rewrite IH. reflexivity. Qed.

Lemma len_append (a b : string) : len (a ++ b) = len a + len b.
Proof.
  induction a as [| x a IH]; [cbn [append]; change (len "") with 0; lia |].
  cbn [append]. rewrite !len_cons, IH. lia.
Qed.

Lemma skip_digits_suffix (s : string) : exists p, s = p ++ time.skip_digits s.
Proof.
  induction s as [| c s [p IH]]; [exists ""; reflexivity |].
  cbn [time.skip_digits]. destruct (time.is_digit c).
  - exists (String c p). cbn [append]. rewrite <- IH. reflexivity.
  - exists "". reflexivity.
Qed.

Lemma fractional_suffix (value r : string) :
  time.fractional value = Some (tt, r) -> exists p, value = p ++ r.
Proof.
  unfold time.fractional. destruct value as [| c0 [| c1 rest]];
    try (intros [= <-]; exists ""; reflexivity).
  destruct (time.commaOrPeriod c0 && time.is_digit c1); intros [= <-];
    [| exists ""; reflexivity].
  destruct (skip_digits_suffix rest) as [p Hp].
  exists (String c0 (String c1 p)). cbn [append]. rewrite <- Hp. reflexivity.
Qed.

(** What the zone chunk consumes is [Z] or a numeric offset. *)
Lemma zone_inv (value r : string) :
  time.zone value = Some (tt, r) ->
  exists z, value = z ++ r /\ strict_zone z = true.
Proof.
  unfold time.zone. destruct value as [| c0 rest0]; [discriminate |].
  destruct (Ascii.eqb_spec c0 "Z") as [-> | _].
  - intros [= <-]. exists "Z". split; reflexivity.
  - destruct (len (String c0 rest0) <? 6); [discriminate |].
    destruct rest0 as [| h0 [| h1 [| c [| m0 [| m1 rest]]]]]; try discriminate.
    destruct (Ascii.eqb_spec c ":") as [-> | _]; cbn [negb]; [| discriminate].
    destruct (time.getnum true (String h0 (String h1 ""))) as [[hr rh] |] eqn:Eh;
      [| discriminate].
    destruct (time.getnum true (String m0 (String m1 ""))) as [[mm rm] |] eqn:Em;
      [| discriminate].
    destruct ((hr >? 24) || (mm >? 60)); [discriminate |].
    destruct (Ascii.eqb c0 "+" || Ascii.eqb c0 "-") eqn:Hs; [| discriminate].
    intros [= <-].
    destruct (getnum_fixed_inv _ _ _ Eh) as (a & b & [= -> -> _] & Da & Db & _).
    destruct (getnum_fixed_inv _ _ _ Em) as (a' & b' & [= -> -> _] & Da' & Db' & _).
    exists (String c0 (String a (String b (String ":"
              (String a' (String b' "")))))).
    split; [reflexivity |].
    cbn [strict_zone]. unfold is_sign. rewrite Hs, Da, Db, Da', Db'.
    reflexivity.
Qed.

(** X20.  A text accepted by [isValidISO8601] starts with four digits,
    ['-'], two digits of a month 1 to 12, ['-'], two digits of a day of
    that month and year (29 February in leap years only), ['T'], and a digit
    of the hour; it ends with the zone, [Z] or a sign, two digits, [':'] and
    two digits; and it has at least 19 bytes in all.  So a date alone, a
    space in place of ['T'], or a text without a zone are all rejected. *)
Theorem isValidISO8601_shape (s : string) :
  isValidISO8601 s = true ->
  (exists y0 y1 y2 y3 m1 m0 d1 d0 h rest,
     s = String y0 (String y1 (String y2 (String y3 (String "-"
           (String m1 (String m0 (String "-"
              (String d1 (String d0 (String "T" (String h rest))))))))))) /\
     forallb time.is_digit [y0; y1; y2; y3; m1; m0; d1; d0; h] = true /\
     (let year := (((byte y0 - 48) * 10 + (byte y1 - 48)) * 10
                   + (byte y2 - 48)) * 10 + (byte y3 - 48) in
      let month := (byte m1 - 48) * 10 + (byte m0 - 48) in
      let day := (byte d1 - 48) * 10 + (byte d0 - 48) in
      1 <= month <= 12 /\ 1 <= day <= time.daysIn month year)) /\
  (exists p z, s = p ++ z /\ 18 <= len p /\ strict_zone z = true) /\
  19 <= len s.
Proof.
  unfold isValidISO8601, time.Parse_RFC3339, time.bind, time.in_range,
    time.ret, time.fail.
  destruct (time.longYear s) as [[year r0] |] eqn:E0; [| discriminate].
  destruct (time.skip "-" r0) as [[[] r1] |] eqn:E1; [| discriminate].
  destruct (time.getnum true r1) as [[month r2] |] eqn:E2; [| discriminate].
  destruct (Z.leb_spec month 0) as [? | Hm1]; [discriminate |].
  destruct (Z.ltb_spec 12 month) as [? | Hm2]; [discriminate |].
  cbn [orb negb].
  destruct (time.skip "-" r2) as [[[] r3] |] eqn:E3; [| discriminate].
  destruct (time.getnum true r3) as [[day r4] |] eqn:E4; [| discriminate].
  destruct (time.skip "T" r4) as [[[] r5] |] eqn:E5; [| discriminate].
  destruct (time.getnum false r5) as [[hour r6] |] eqn:E6; [| discriminate].
  destruct ((hour <? 0) || (24 <=? hour)); [discriminate |]. cbn [negb].
  destruct (time.skip ":" r6) as [[[] r7] |] eqn:E7; [| discriminate].
  destruct (time.getnum true r7) as [[mi r8] |] eqn:E8; [| discriminate].
  destruct ((mi <? 0) || (60 <=? mi)); [discriminate |]. cbn [negb].
  destruct (time.skip ":" r8) as [[[] r9] |] eqn:E9; [| discriminate].
  destruct (time.getnum true r9) as [[sec r10] |] eqn:E10; [| discriminate].
  destruct ((sec <? 0) || (60 <=? sec)); [discriminate |]. cbn [negb].
  destruct (time.fractional r10) as [[[] r11] |] eqn:E11; [| discriminate].
  destruct (time.zone r11) as [[[] r12] |] eqn:E12; [| discriminate].
  destruct (Z.eqb_spec (len r12) 0) as [H12 | ?]; cbn [negb]; [| discriminate].
  destruct (Z.ltb_spec day 1) as [? | Hd1]; [discriminate |].
  destruct (Z.gtb_spec day (time.daysIn month year)) as [? | Hd2];
    [discriminate |].
  intros _.
  apply len_zero in H12. subst r12.
  assert (year_value : forall c0 c1 c2 c3,
            time.is_digit c0 = true ->
            time.longYear (String c0 (String c1 (String c2 (String c3 r0))))
            = Some (year, r0) ->
            year = (((byte c0 - 48) * 10 + (byte c1 - 48)) * 10
                    + (byte c2 - 48)) * 10 + (byte c3 - 48)).
  { intros c0 c1 c2 c3 D0 H. unfold time.longYear, time.isDigit in H.
    cbn [String.get] in H. rewrite D0, !len_cons in H.
    destruct (Z.ltb_spec (len r0 + 1 + 1 + 1 + 1) 4) as [Hlt | _];
      [pose proof (len_nonneg r0); lia |].
    cbn [negb orb String.length Nat.sub substring] in H.
    rewrite Nat.sub_0_r, substring_all, substring_none in H.
    unfold time.atoi in H.
    assert (Hm : Ascii.eqb c0 "-" = false /\ Ascii.eqb c0 "+" = false).
    { clear -D0. revert D0. each_byte c0; intros H; try discriminate H;
        split; reflexivity. }
    destruct Hm as [Hm Hp]. rewrite Hm, Hp in H.
    cbn [time.leadingInt] in H. rewrite D0 in H.
    destruct (time.is_digit c1); [| discriminate H].
    destruct (time.is_digit c2); [| discriminate H].
    destruct (time.is_digit c3); [| discriminate H].
    injection H as <-. lia. }
  destruct (longYear_inv _ _ _ E0) as (y0 & y1 & y2 & y3 & -> & Y0 & Y1 & Y2 & Y3).
  pose proof (year_value y0 y1 y2 y3 Y0 E0) as Ey.
  apply skip_inv in E1. subst r0.
  destruct (getnum_fixed_inv _ _ _ E2) as (m1 & m0 & -> & M1 & M0 & Em).
  apply skip_inv in E3. subst r2.
  destruct (getnum_fixed_inv _ _ _ E4) as (d1 & d0 & -> & D1 & D0 & Ed).
  apply skip_inv in E5. subst r4.
  apply skip_inv in E7. subst r6.
  destruct (getnum_fixed_inv _ _ _ E8) as (mi1 & mi0 & -> & _).
  apply skip_inv in E9. subst r8.
  destruct (getnum_fixed_inv _ _ _ E10) as (s1 & s0 & -> & _).
  destruct (fractional_suffix _ _ E11) as (pf & ->).
  destruct (zone_inv _ _ E12) as (z & -> & Hz).
  assert (Hzlen : 1 <= len z).
  { destruct z as [| c z]; [discriminate Hz |].
    rewrite len_cons. pose proof (len_nonneg z). lia. }
  assert (Hh : exists h hp, r5 = String h (hp ++ String ":"
                 (String mi1 (String mi0 (String ":"
                    (String s1 (String s0 (pf ++ z ++ ""))))))) /\
               time.is_digit h = true).
  { destruct (getnum_inv _ _ _ _ E6)
      as [(a & b & -> & Da & _) | (_ & a & -> & Da & _)].
    - exists a, (String b ""). split; [reflexivity | exact Da].
    - exists a, "". split; [reflexivity | exact Da]. }
  destruct Hh as (h & hp & -> & Dh).
  split; [| split].
  - eexists y0, y1, y2, y3, m1, m0, d1, d0, h, _.
    split; [reflexivity |]. split.
    + cbn [forallb]. rewrite Y0, Y1, Y2, Y3, M1, M0, D1, D0, Dh. reflexivity.
    + cbv zeta. rewrite <- Ey, <- Em, <- Ed. lia.
  - exists (String y0 (String y1 (String y2 (String y3 (String "-"
             (String m1 (String m0 (String "-"
                (String d1 (String d0 (String "T" (String h
                   (hp ++ String ":" (String mi1 (String mi0 (String ":"
                      (String s1 (String s0 pf)))))))))))))))))), z.
    split; [| split; [| exact Hz]].
    + cbn [append]. rewrite append_assoc. cbn [append].
      replace (z ++ "") with z
        by (clear; induction z as [| c z IH]; [reflexivity |];
            cbn [append]; rewrite <- IH; reflexivity).
      reflexivity.
    + rewrite !len_cons, len_append, !len_cons.
      generalize (len_nonneg hp) (len_nonneg pf).
      generalize (len hp) (len pf). clear. intros a b Ha Hb. lia.
  - rewrite !len_cons, len_append, !len_cons, !len_append.
    change (len "") with 0.
    generalize (len_nonneg hp) (len_nonneg pf) Hzlen.
    generalize (len hp) (len pf) (len z). clear.
    intros a b c Ha Hb Hc. lia.
Qed.

Lemma isValidISO8601_shape_witness :
  exists p z, "2024-01-15T10:30:00+02:00" = p ++ z /\ 18 <= len p /\
              strict_zone z = true.
Proof.
  apply (proj1 (proj2 (isValidISO8601_shape "2024-01-15T10:30:00+02:00"
                         ltac:(vm_compute; reflexivity)))).
Defined.

(** * The example program *)

(** X21.  Whatever the current time (of a year 0 to 9999) and on either size
    of [int], the example program passes every check before the request:
    it ends as [SendWebhook] ends on the payload with the color 7331405, the
    four fields in the order field 1 to field 4, and the current time as
    timestamp; it succeeds if the transport answers 200 or 204. *)
Theorem example2_main_sends (sz : IntSize)
  (http_Post : string -> string -> json.JSON -> post_result)
  (now : time_Format.Time) :
  time_Format.civil now ->
  example2_main sz http_Post now =
    match SendWebhook http_Post "YOUR_WEBHOOK_URL" (example2_payload now) with
    | Some err => Fatalf "Error sending webhook: %v" err
    | None => Done
    end /\
  (http_Post "YOUR_WEBHOOK_URL" "application/json"
             (json.encode (json.of_Webhook (example2_payload now)))
   = Response 204 ->
   example2_main sz http_Post now = Done).
Proof.
  intros Hnow.
  assert (E : example2_main sz http_Post now =
              match SendWebhook http_Post "YOUR_WEBHOOK_URL"
                                (example2_payload now) with
              | Some err => Fatalf "Error sending webhook: %v" err
              | None => Done
              end).
  { unfold example2_main. cbv zeta.
    change (CreateWebhook "Hello Discord From Go!" "Bot's username"
              example2_imageURL)
      with (mkWebhook "Hello Discord From Go!" "Bot's username"
              example2_imageURL [], @None error).
    rewrite (CreateEmbed_rgb_ok sz _ _ _ (mkRGB 111 222 77) eq_refl).
    cbv iota.
    unfold SetTimestamp, isValidISO8601.
    rewrite (proj1 (Parse_Format now Hnow)). reflexivity. }
  split; [exact E |].
  intros H204. rewrite E. unfold SendWebhook, json.Marshal. rewrite H204.
  reflexivity.
Qed.

Lemma example2_main_sends_witness :
  example2_main Int64 (fun _ _ _ => Response 204)
                (time_Format.mkTime 2024 1 15 10 30 0 0) = Done.
Proof.
  refine (proj2 (example2_main_sends Int64 (fun _ _ _ => Response 204)
                   (time_Format.mkTime 2024 1 15 10 30 0 0) _) eq_refl).
  unfold time_Format.civil. vm_compute.
  repeat split; first [reflexivity | discriminate].
Defined.

(** * Letter case and the ['#'] of hex colors *)

Lemma lower_byte_hex (c : ascii) :
  is_hex_digit (lower_byte c) = is_hex_digit c /\
  is_sign (lower_byte c) = is_sign c /\
  Ascii.eqb (lower_byte c) "-" = Ascii.eqb c "-" /\
  Ascii.eqb (lower_byte c) "#" = Ascii.eqb c "#" /\
  (is_hex_digit c = true ->
   hex_digit_value (lower_byte c) = hex_digit_value c).
Proof.
  each_byte c;
    (split; [reflexivity |]); (split; [reflexivity |]);
    (split; [reflexivity |]); (split; [reflexivity |]);
    intros H; first [reflexivity | discriminate H].
Qed.

Lemma lower_string_len (s : string) : len (lower_string s) = len s.
Proof.
  induction s as [| c s IH]; [reflexivity |].
  cbn [lower_string]. rewrite !len_cons, IH. reflexivity.
Qed.

Lemma lower_string_all_hex (s : string) :
  all_hex (lower_string s) = all_hex s.
Proof.
  induction s as [| c s IH]; [reflexivity |].
  cbn [lower_string all_hex].
  rewrite IH, (proj1 (lower_byte_hex c)). reflexivity.
Qed.

Lemma lower_string_base16 (s : string) :
  all_hex s = true ->
  forall acc, base16 (lower_string s) acc = base16 s acc.
Proof.
  induction s as [| c s IH]; intros Hhex acc; [reflexivity |].
  cbn [all_hex] in Hhex. apply andb_prop in Hhex as [Hc Hs].
  cbn [lower_string base16].
  destruct (lower_byte_hex c) as (_ & _ & _ & _ & Hv).
  rewrite (Hv Hc). apply IH. exact Hs.
Qed.

Lemma lower_string_parse (sz : IntSize) (p : string) :
  len p = 6 ->
  fst (hexToColorInt_parse sz (lower_string p)) =
    fst (hexToColorInt_parse sz p) /\
  (snd (hexToColorInt_parse sz (lower_string p)) = None <->
   snd (hexToColorInt_parse sz p) = None).
Proof.
  intros Hp.
  assert (Hp' : len (lower_string p) = 6) by (rewrite lower_string_len; exact Hp).
  destruct (hexToColorInt_parse_kinds sz p Hp)
    as [(Hh & E & _) | [(c & d & -> & Hc & Hd & H5 & _ & E & _) | (Hh & Hs & E)]];
    rewrite E; cbn [fst snd].
  - assert (Hh' : all_hex (lower_string p) = true)
      by (rewrite lower_string_all_hex; exact Hh).
    rewrite (proj1 (hexToColorInt_parse_hex sz _ Hh' Hp')). cbn [fst snd].
    rewrite (lower_string_base16 p Hh). split; [reflexivity | tauto].
  - cbn [lower_string].
    destruct (lower_byte_hex c) as (_ & Hsign & Hminus & _).
    assert (Hd' : all_hex (lower_string d) = true)
      by (rewrite lower_string_all_hex; exact Hd).
    rewrite (proj1 (hexToColorInt_parse_signed sz (lower_byte c)
                      (lower_string d) ltac:(rewrite Hsign; exact Hc) Hd'
                      ltac:(rewrite lower_string_len; exact H5))).
    cbn [fst snd]. rewrite Hminus, (lower_string_base16 d Hd).
    split; [reflexivity | tauto].
  - assert (Hh' : all_hex (lower_string p) = false)
      by (rewrite lower_string_all_hex; exact Hh).
    assert (Hs' : signed_hex (lower_string p) = false).
    { destruct p as [| c d]; [reflexivity |].
      cbn [lower_string signed_hex] in *.
      rewrite lower_string_all_hex, (proj1 (proj2 (lower_byte_hex c))).
      exact Hs. }
    rewrite (hexToColorInt_parse_syntax sz _ Hh' Hs' Hp'). cbn [fst snd].
    split; [reflexivity | split; discriminate].
Qed.

(** X22.  Hex colors do not depend on the case of their letters, and the
    ['#'] before six bytes changes nothing: a string and its lower-case form
    are both accepted or both rejected, with the same value, and ['#']
    followed by six bytes gives the result of the six bytes alone, value
    and error alike. *)
Theorem hexToColorInt_case_and_hash (sz : IntSize) (s : string) :
  fst (hexToColorInt sz (lower_string s)) = fst (hexToColorInt sz s) /\
  (snd (hexToColorInt sz (lower_string s)) = None <->
   snd (hexToColorInt sz s) = None) /\
  (len s = 6 -> hexToColorInt sz (String "#" s) = hexToColorInt sz s).
Proof.
  split; [| split].
  1, 2:
    destruct (hexToColorInt_payload sz s)
      as [(H6 & E) | [(p & -> & Hp & E) | (H6 & Hhash & E)]]; rewrite E;
    [ rewrite hexToColorInt_len6 by (rewrite lower_string_len; exact H6);
      apply (lower_string_parse sz s H6)
    | cbn [lower_string];
      change (lower_byte "#") with "#"%char;
      rewrite hexToColorInt_hash by (rewrite lower_string_len; exact Hp);
      apply (lower_string_parse sz p Hp)
    | rewrite hexToColorInt_format;
      [ cbn [fst snd]; first [reflexivity | tauto]
      | rewrite lower_string_len; exact H6
      | destruct s as [| c s]; [exact H6 |];
        cbn [lower_string strip_hash];
        rewrite (proj1 (proj2 (proj2 (proj2 (lower_byte_hex c)))));
        destruct (Ascii.eqb c "#") eqn:Hc;
        [ apply Ascii.eqb_eq in Hc; subst c; rewrite lower_string_len;
          exact (Hhash s eq_refl)
        | rewrite len_cons, lower_string_len; rewrite len_cons in H6;
          exact H6 ] ] ].
  intros H6. rewrite hexToColorInt_hash, hexToColorInt_len6 by exact H6.
  reflexivity.
Qed.

Lemma hexToColorInt_case_and_hash_witness :
  hexToColorInt Int64 "#FF5733" = hexToColorInt Int64 "FF5733".
Proof.
  apply (proj2 (proj2 (hexToColorInt_case_and_hash Int64 "FF5733"))).
  reflexivity.
Defined.

(** * The length of the content *)

Example characters_ascii : characters "Hello Discord From Go!" = 22.
Proof. reflexivity. Qed.

Example characters_euro : characters euro = 1 /\ len euro = 3.
Proof. split; reflexivity. Qed.

(** On a content of ASCII bytes only, bytes and characters are the same
    count, and [CreateWebhook] is right about the 2000 characters. *)
Lemma characters_len (s : string) :
  characters s <= len s /\
  (forallb (fun c => byte c <? 128) (list_ascii_of_string s) = true ->
   characters s = len s).
Proof.
  induction s as [| c s [IH1 IH2]]; [split; reflexivity |].
  cbn [characters list_ascii_of_string forallb]. rewrite len_cons.
  unfold is_continuation. split.
  - destruct ((128 <=? byte c) && (byte c <=? 191)); lia.
  - intros H. apply andb_prop in H as [Hc Hs]. apply Z.ltb_lt in Hc.
    destruct (Z.leb_spec 128 (byte c)); [lia |]. cbn [andb].
    rewrite (IH2 Hs). lia.
Qed.

(** C5 (the code departs from the claim).  The claim is that a content of at
    most 2000 characters is accepted.  [CreateWebhook] compares
    [len(content)], the number of bytes, with 2000, and its own message calls
    that number characters: a content of 667 euro signs has 667 characters
    and 2001 bytes, and it is refused with the length 2001. *)
Theorem CreateWebhook_counts_bytes (username avatarURL : string) :
  characters (Repeat euro 667) = 667 /\
  len (Repeat euro 667) = 2001 /\
  CreateWebhook (Repeat euro 667) username avatarURL =
    (Webhook_zero,
     Some (Errorf
       "the length of the content cannot exceed 2000 characters (your length: %d)"
       [ArgD 2001])).
Proof.
  assert (Hlen : len (Repeat euro 667) = 2001) by (vm_compute; reflexivity).
  split; [vm_compute; reflexivity |]. split; [exact Hlen |].
  unfold CreateWebhook. rewrite Hlen. reflexivity.
Qed.

(** * Mutations and shared arrays *)

Section AppendFacts.

Context {A : Type}.
Variable zero : A.
Variable growslice : nat -> nat -> nat.

Lemma put_length (h : list (list A)) (i : nat) (a : list A) :
  List.length (store.put h i a) = List.length h.
Proof.
  revert i. induction h as [| x h IH]; intros [| i]; cbn; try reflexivity.
  rewrite IH. reflexivity.
Qed.








End AppendFacts.








(** The same through the package alone, when the runtime doubles the
    capacity: after three [AddField] calls on the embed [CreateEmbed]
    returned, the array has four slots for three fields; a copy of the
    embed then takes the slot the original has used. *)
Example AddField_changes_a_copy_grown :
  let m0 := store.mkMemory [] [] in
  let s1 := store.AddField store.double m0 created_embed field_a in
  let s2 := store.AddField store.double (fst s1) (snd s1) field_a in
  let s3 := store.AddField store.double (fst s2) (snd s2) field_a in
  let copy := snd s3 in
  let s4 := store.AddField store.double (fst s3) (snd s3) field_x in
  let s5 := store.AddField store.double (fst s4) copy field_y in
  store.H_Fields (snd s3) = store.mkSlice 2 3 4 /\
  Fields (store.read_Embed (fst s4) (snd s4)) =
    [field_a; field_a; field_a; field_x] /\
  Fields (store.read_Embed (fst s5) (snd s4)) =
    [field_a; field_a; field_a; field_y].
Proof. cbv zeta. repeat split. Qed.
